(** * Onboarding assistant: Drive change detection and tool dispatch

    A shallow embedding of [src/backend/drive_service.py] (the document
    poller with its hash-based change detection) and of
    [src/backend/tools.py] (the [@tool] invocation parser and router),
    followed by the properties established about them.

    Conventions.
    - A Python [str] is a Rocq [string]; the character classes of the
      regular expressions are those of the ASCII range (code points
      below 128), where [\w] is [[A-Za-z0-9_]].
    - A call that may raise returns [Res A]; the exception carries its
      class, so that [except Exception] and [except AttributeError]
      select what they select in Python.
    - The SQLite tables of [db.py] are finite maps and lists. *)

From Stdlib Require Import ZArith Ascii String List Lia Bool.
From stdpp Require Import gmap strings list fin_maps.

Open Scope string_scope.
Open Scope Z_scope.

(** ** Python runtime prelude *)

Module Py.

(** Exception classes that the modelled code raises or selects on.
    [KeyboardInterrupt] derives from [BaseException] only. *)
Inductive exn_class :=
| AttributeError
| ValueError
| OverflowError
| HttpError
| RuntimeError
| KeyboardInterrupt.

Record exn := mk_exn { exn_cls : exn_class; exn_str : string }.

(** [isinstance(e, Exception)]. *)
Definition is_Exception (e : exn) : bool :=
  match exn_cls e with
  | KeyboardInterrupt => false
  | _ => true
  end.

Inductive Res (A : Type) :=
| Ok (a : A)
| Raise (e : exn).
Arguments Ok {A} a.
Arguments Raise {A} e.

(** The double quote and the apostrophe. *)
Definition dq : ascii := ascii_of_nat 34.
Definition sq : ascii := ascii_of_nat 39.
Definition nl : ascii := ascii_of_nat 10.
Definition str1 (c : ascii) : string := String c EmptyString.

Definition code (c : ascii) : nat := nat_of_ascii c.
Definition between (lo hi : nat) (c : ascii) : bool :=
  (Nat.leb lo (code c) && Nat.leb (code c) hi)%bool.

Definition is_digit (c : ascii) : bool := between 48 57 c.
Definition is_upper (c : ascii) : bool := between 65 90 c.
Definition is_lower (c : ascii) : bool := between 97 122 c.

(** [\w] on the ASCII range. *)
Definition is_word (c : ascii) : bool :=
  (is_digit c || is_upper c || is_lower c || Nat.eqb (code c) 95)%bool.

(** [\s] and [str.isspace] on the ASCII range: tab, line feed, vertical
    tab, form feed, carriage return, the four separators 28..31, space. *)
Definition is_space (c : ascii) : bool :=
  (between 9 13 c || between 28 31 c || Nat.eqb (code c) 32)%bool.

Definition is_quote (c : ascii) : bool :=
  (Nat.eqb (code c) 34 || Nat.eqb (code c) 39)%bool.

(** [str.lower] on one character. *)
Definition lower_char (c : ascii) : ascii :=
  if is_upper c then ascii_of_nat (code c + 32) else c.

Fixpoint lower (s : string) : string :=
  match s with
  | EmptyString => EmptyString
  | String c s' => String (lower_char c) (lower s')
  end.

(** [s[:n]]. *)
Fixpoint take_str (n : nat) (s : string) : string :=
  match n, s with
  | O, _ => EmptyString
  | S n', EmptyString => EmptyString
  | S n', String c s' => String c (take_str n' s')
  end.

(** [s[n:]]. *)
Fixpoint drop_str (n : nat) (s : string) : string :=
  match n, s with
  | O, _ => s
  | S n', EmptyString => EmptyString
  | S n', String c s' => drop_str n' s'
  end.

(** [s.startswith(p)]. *)
Fixpoint startswith (p s : string) : bool :=
  match p, s with
  | EmptyString, _ => true
  | String a p', String b s' => (Ascii.eqb a b && startswith p' s')%bool
  | String _ _, EmptyString => false
  end.

(** [p in s]. *)
Fixpoint contains (p s : string) : bool :=
  (startswith p s ||
   match s with
   | EmptyString => false
   | String _ s' => contains p s'
   end)%bool.

(** [s.replace(old, new)] for a non-empty [old]: every non-overlapping
    occurrence, scanning from the left, is replaced. *)
Fixpoint replace_fuel (fuel : nat) (old new s : string) : string :=
  match fuel with
  | O => s
  | S fuel' =>
    match s with
    | EmptyString => EmptyString
    | String c s' =>
      if startswith old s
      then new +:+ replace_fuel fuel' old new (drop_str (String.length old) s)
      else String c (replace_fuel fuel' old new s')
    end
  end.

Definition replace (old new s : string) : string :=
  replace_fuel (String.length s) old new s.

Fixpoint lstrip (s : string) : string :=
  match s with
  | String c s' => if is_space c then lstrip s' else s
  | EmptyString => EmptyString
  end.

Fixpoint rstrip (s : string) : string :=
  match s with
  | EmptyString => EmptyString
  | String c s' =>
    match rstrip s' with
    | EmptyString => if is_space c then EmptyString else str1 c
    | r => String c r
    end
  end.

(** [s.strip()]. *)
Definition strip (s : string) : string := rstrip (lstrip s).

(** [str.join] with the empty separator. *)
Fixpoint join (l : list string) : string :=
  match l with
  | [] => EmptyString
  | s :: l' => s +:+ join l'
  end.

(** Decimal digits of a natural number, as [str(n)] prints them. *)
Definition digit_char (n : nat) : ascii := ascii_of_nat (48 + n).

Fixpoint nat_digits (fuel n : nat) (acc : string) : string :=
  match fuel with
  | O => acc
  | S fuel' =>
    let acc' := String (digit_char (n mod 10)) acc in
    if Nat.ltb n 10 then acc' else nat_digits fuel' (n / 10) acc'
  end.

Definition str_of_nat (n : nat) : string := nat_digits (S n) n EmptyString.

(** [str(z)] for an [int]. *)
Definition str_of_Z (z : Z) : string :=
  if z <? 0 then "-" +:+ str_of_nat (Z.to_nat (- z)) else str_of_nat (Z.to_nat z).

(** Value of a string of decimal digits, most significant first. *)
Fixpoint digits_value (s : string) (acc : Z) : Z :=
  match s with
  | EmptyString => acc
  | String c s' => digits_value s' (10 * acc + Z.of_nat (code c - 48))
  end.

(** [sys.get_int_max_str_digits()]: CPython refuses to convert a decimal
    string of more digits than this (leading zeros count). *)
Definition int_max_str_digits : nat := 4300.

(** [int(s)] for a string of decimal digits, as [\d+] delivers it. *)
Definition int_of_digits (s : string) : Res Z :=
  if Nat.ltb int_max_str_digits (String.length s)
  then Raise (mk_exn ValueError
         ("Exceeds the limit (4300 digits) for integer string conversion: value has "
          +:+ str_of_nat (String.length s)
          +:+ " digits; use sys.set_int_max_str_digits() to increase the limit"))
  else Ok (digits_value s 0).

End Py.

(** ** hashlib.md5 *)

Module Md5.

Definition mask32 : Z := 0xffffffff.
Definition add32 (a b : Z) : Z := Z.land (a + b) mask32.
Definition not32 (a : Z) : Z := Z.lxor a mask32.
Definition rotl32 (x c : Z) : Z :=
  Z.land (Z.lor (Z.shiftl x c) (Z.shiftr x (32 - c))) mask32.

Definition shifts : list Z :=
  [7; 12; 17; 22; 7; 12; 17; 22; 7; 12; 17; 22; 7; 12; 17; 22;
   5; 9; 14; 20; 5; 9; 14; 20; 5; 9; 14; 20; 5; 9; 14; 20;
   4; 11; 16; 23; 4; 11; 16; 23; 4; 11; 16; 23; 4; 11; 16; 23;
   6; 10; 15; 21; 6; 10; 15; 21; 6; 10; 15; 21; 6; 10; 15; 21].

Definition sines : list Z :=
  [0xd76aa478; 0xe8c7b756; 0x242070db; 0xc1bdceee; 0xf57c0faf; 0x4787c62a;
   0xa8304613; 0xfd469501; 0x698098d8; 0x8b44f7af; 0xffff5bb1; 0x895cd7be;
   0x6b901122; 0xfd987193; 0xa679438e; 0x49b40821; 0xf61e2562; 0xc040b340;
   0x265e5a51; 0xe9b6c7aa; 0xd62f105d; 0x02441453; 0xd8a1e681; 0xe7d3fbc8;
   0x21e1cde6; 0xc33707d6; 0xf4d50d87; 0x455a14ed; 0xa9e3e905; 0xfcefa3f8;
   0x676f02d9; 0x8d2a4c8a; 0xfffa3942; 0x8771f681; 0x6d9d6122; 0xfde5380c;
   0xa4beea44; 0x4bdecfa9; 0xf6bb4b60; 0xbebfbc70; 0x289b7ec6; 0xeaa127fa;
   0xd4ef3085; 0x04881d05; 0xd9d4d039; 0xe6db99e5; 0x1fa27cf8; 0xc4ac5665;
   0xf4292244; 0x432aff97; 0xab9423a7; 0xfc93a039; 0x655b59c3; 0x8f0ccc92;
   0xffeff47d; 0x85845dd1; 0x6fa87e4f; 0xfe2ce6e0; 0xa3014314; 0x4e0811a1;
   0xf7537e82; 0xbd3af235; 0x2ad7d2bb; 0xeb86d391].

Definition bytes_of_string (s : string) : list Z :=
  map (fun c => Z.of_nat (nat_of_ascii c)) (list_ascii_of_string s).

(** Little-endian bytes of [x], [n] of them. *)
Fixpoint le_bytes (n : nat) (x : Z) : list Z :=
  match n with
  | O => []
  | S n' => Z.land x 255 :: le_bytes n' (Z.shiftr x 8)
  end.

Fixpoint le_word (bs : list Z) : Z :=
  match bs with
  | [] => 0
  | b :: bs' => b + Z.shiftl (le_word bs') 8
  end.

(** The message followed by 0x80, zero bytes up to 56 modulo 64, and the
    length in bits on 64 bits. *)
Definition pad (msg : list Z) : list Z :=
  let n := Z.of_nat (length msg) in
  msg ++ [128] ++ repeat 0 (Z.to_nat ((55 - n) mod 64))
      ++ le_bytes 8 (Z.land (8 * n) 0xffffffffffffffff).

Fixpoint words (n : nat) (bs : list Z) : list Z :=
  match n with
  | O => []
  | S n' => le_word (take 4 bs) :: words n' (drop 4 bs)
  end.

Definition state : Type := Z * Z * Z * Z.

Definition step (m : list Z) (st : state) (i : nat) : state :=
  let '(a, b, c, d) := st in
  let '(f, g) :=
    if Nat.ltb i 16 then (Z.lor (Z.land b c) (Z.land (not32 b) d), i)
    else if Nat.ltb i 32 then (Z.lor (Z.land d b) (Z.land (not32 d) c), (5 * i + 1) mod 16)%nat
    else if Nat.ltb i 48 then (Z.lxor (Z.lxor b c) d, (3 * i + 5) mod 16)%nat
    else (Z.lxor c (Z.lor b (not32 d)), (7 * i) mod 16)%nat in
  let f' := add32 (add32 (add32 f a) (nth i sines 0)) (nth g m 0) in
  (d, add32 b (rotl32 f' (nth i shifts 0)), b, c).

Definition block (st : state) (bs : list Z) : state :=
  let m := words 16 bs in
  let '(a, b, c, d) := st in
  let '(a', b', c', d') := fold_left (step m) (seq 0 64) st in
  (add32 a a', add32 b b', add32 c c', add32 d d').

Fixpoint blocks (n : nat) (st : state) (bs : list Z) : state :=
  match n with
  | O => st
  | S n' => blocks n' (block st (take 64 bs)) (drop 64 bs)
  end.

Definition init : state := (0x67452301, 0xefcdab89, 0x98badcfe, 0x10325476).

Definition digest (msg : list Z) : list Z :=
  let p := pad msg in
  let '(a, b, c, d) := blocks (length p / 64) init p in
  le_bytes 4 a ++ le_bytes 4 b ++ le_bytes 4 c ++ le_bytes 4 d.

Definition hex_digit (n : Z) : ascii :=
  if n <? 10 then ascii_of_nat (48 + Z.to_nat n) else ascii_of_nat (87 + Z.to_nat n).

Fixpoint hex (bs : list Z) : string :=
  match bs with
  | [] => EmptyString
  | b :: bs' => String (hex_digit (Z.shiftr b 4)) (String (hex_digit (Z.land b 15)) (hex bs'))
  end.

(** [hashlib.md5(data).hexdigest()]. *)
Definition hexdigest (s : string) : string := hex (digest (bytes_of_string s)).

End Md5.

(** ** The [re] module: a backtracking matcher

    The patterns of [tools.py] use literals, character classes, greedy
    and lazy repetition of a class, an optional class and one capturing
    group. [run r s] lists the ways [r] matches a prefix of [s] in the
    order in which a backtracking matcher tries them, so its head is
    what [re.match] reports. *)

Module Re.

Inductive regex :=
| Eps
| Chr (p : ascii -> bool)
| Seq (r1 r2 : regex)
| Opt (p : ascii -> bool)
| Plus (p : ascii -> bool)
| PlusLazy (p : ascii -> bool)
| Group (r : regex).

(** A match: the text consumed, the text of group 1 if the group took
    part, and what is left of the input. *)
Record found := mk_found { consumed : string; group1 : option string; rest : string }.

Definition or_else (a b : option string) : option string :=
  match b with
  | Some _ => b
  | None => a
  end.

Definition extend (c : ascii) (m : string * string) : string * string :=
  (String c (fst m), snd m).

(** [p+]: the longest run first. *)
Fixpoint plus_greedy (p : ascii -> bool) (s : string) : list (string * string) :=
  match s with
  | EmptyString => []
  | String c s' =>
    if p c then map (extend c) (plus_greedy p s') ++ [(Py.str1 c, s')] else []
  end.

(** [p+?]: the shortest run first. *)
Fixpoint plus_lazy (p : ascii -> bool) (s : string) : list (string * string) :=
  match s with
  | EmptyString => []
  | String c s' =>
    if p c then (Py.str1 c, s') :: map (extend c) (plus_lazy p s') else []
  end.

Definition plain (m : string * string) : found := mk_found (fst m) None (snd m).

Fixpoint run (r : regex) (s : string) : list found :=
  match r with
  | Eps => [mk_found EmptyString None s]
  | Chr p =>
    match s with
    | String c s' => if p c then [mk_found (Py.str1 c) None s'] else []
    | EmptyString => []
    end
  | Seq r1 r2 =>
    flat_map (fun m1 =>
      map (fun m2 => mk_found (consumed m1 +:+ consumed m2)
                              (or_else (group1 m1) (group1 m2)) (rest m2))
          (run r2 (rest m1)))
      (run r1 s)
  | Opt p =>
    match s with
    | String c s' =>
      if p c then [mk_found (Py.str1 c) None s'; mk_found EmptyString None s]
      else [mk_found EmptyString None s]
    | EmptyString => [mk_found EmptyString None s]
    end
  | Plus p => map plain (plus_greedy p s)
  | PlusLazy p => map plain (plus_lazy p s)
  | Group r' => map (fun m => mk_found (consumed m) (Some (consumed m)) (rest m)) (run r' s)
  end.

(** [re.search(r, s)]: the match at the leftmost position that has one. *)
Fixpoint search (r : regex) (s : string) : option found :=
  match run r s with
  | m :: _ => Some m
  | [] =>
    match s with
    | EmptyString => None
    | String _ s' => search r s'
    end
  end.

Definition is_char (a : ascii) (c : ascii) : bool := Ascii.eqb a c.

(** A literal character under [re.IGNORECASE]. *)
Definition is_char_ci (a : ascii) (c : ascii) : bool :=
  Ascii.eqb (Py.lower_char a) (Py.lower_char c).

(** A literal word under [re.IGNORECASE], followed by [k]. *)
Fixpoint lit_ci (w : string) (k : regex) : regex :=
  match w with
  | EmptyString => k
  | String a w' => Seq (Chr (is_char_ci a)) (lit_ci w' k)
  end.

(** [[:\s]]. *)
Definition colon_or_space (c : ascii) : bool :=
  (Nat.eqb (Py.code c) 58 || Py.is_space c)%bool.

(** The negated class of the two quote characters. *)
Definition not_quote (c : ascii) : bool := negb (Py.is_quote c).

(** [.] under [re.DOTALL]. *)
Definition any_char (c : ascii) : bool := true.

End Re.

(** ** db.py *)

Module Db.

Record WatchedDocument := mk_doc {
  file_id : string;
  client_id : string;
  file_name : string;
  content_hash : string;
  last_modified : string;
  last_content : string
}.

(** The tables: [clients] maps [client_id] (primary key) to the stored
    [api_key]; [assistants] holds its rows [(assistant_id, client_id)] in
    insertion order; [drive_documents] is keyed by [file_id]. *)
Record DB := mk_db {
  clients : gmap string string;
  assistants : list (string * string);
  drive_documents : gmap string WatchedDocument
}.

(** The row of [clients] as [lookup_client] returns it. *)
Record Client := mk_client { c_client_id : string; c_api_key : string }.
Record Assistant := mk_assistant { a_assistant_id : string; a_client_id : string }.

Definition lookup_client (d : DB) (cid : string) : option Client :=
  match clients d !! cid with
  | Some k => Some (mk_client cid k)
  | None => None
  end.

Definition lookup_assistant (d : DB) (cid : string) : option Assistant :=
  match List.find (fun row => String.eqb (snd row) cid) (assistants d) with
  | Some row => Some (mk_assistant (fst row) (snd row))
  | None => None
  end.

(** Modelled from the spec: [db.lookup_drive_document] is called by
    [drive_service.py] but is absent from [db.py]. The spec gives the
    document store a [lookup(id)] that returns the record of an id or
    nothing. *)
Definition lookup_drive_document (d : DB) (fid : string) : option WatchedDocument :=
  drive_documents d !! fid.

(** Modelled from the spec: [db.create_drive_document] is absent from
    [db.py] as well. The spec gives the store an [insert(record)]; the
    record is keyed by its [file_id]. *)
Definition create_drive_document (d : DB) (doc : WatchedDocument) : DB :=
  mk_db (clients d) (assistants d) (<[file_id doc := doc]> (drive_documents d)).

(** Modelled from the spec: [db.update_drive_document] is absent from
    [db.py] as well. It is modelled with the three arguments its caller
    passes, the id, the hash and the content; a record keeps the fields
    the call names no value for, and an id with no record is left
    without one. *)
Definition update_drive_document (d : DB) (fid hash content : string) : DB :=
  mk_db (clients d) (assistants d)
        (alter (fun doc => mk_doc (file_id doc) (client_id doc) (file_name doc)
                                  hash (last_modified doc) content)
               fid (drive_documents d)).

End Db.

(** ** drive_service.py *)

Module Drive.
Import Py Db.

(** What [files().get(...)] returns: [name] and [modifiedTime] are always
    there, [webViewLink] is read with [dict.get]. *)
Record Metadata := mk_meta {
  md_name : string;
  md_modifiedTime : string;
  md_webViewLink : option string
}.

(** One fragment of the streamed answer of [add_message]. *)
Record Chunk := mk_chunk { chunk_type : string; chunk_content : string }.

(** The collaborators during one poll cycle: the Drive API, the Fernet
    cipher of [encryption.py], the Backboard client and the event loop.
    [add_message] yields fragments and may then raise. *)
Record World := mk_world {
  files_get : string -> Res Metadata;
  export_media : string -> Res string;
  fernet_decrypt : string -> Res string;
  create_thread : string -> string -> Res string;
  add_message : string -> string -> string -> list Chunk * option exn;
  sleep : Z -> Res unit
}.

(** What the poller does to the outside, in order. *)
Inductive Event :=
| Print (line : string)
| CreateThread (api_key assistant_id : string)
| AddMessage (api_key thread_id content : string)
| CreateDriveDocument (doc : WatchedDocument)
| UpdateDriveDocument (fid hash content : string)
| Sleep (seconds : Z).

(** The outcome of a computation: what it returns or raises, the
    database it leaves and the events it caused. A raise keeps the
    effects that came before it. *)
Record Outcome (A : Type) := mk_outcome {
  result : Res A;
  final_db : DB;
  events : list Event
}.
Arguments mk_outcome {A} _ _ _.
Arguments result {A} _.
Arguments final_db {A} _.
Arguments events {A} _.

Definition M (A : Type) : Type := DB -> Outcome A.

Definition ret {A} (a : A) : M A := fun d => mk_outcome (Ok a) d [].

Definition bind {A B} (m : M A) (k : A -> M B) : M B :=
  fun d =>
    match m d with
    | mk_outcome (Ok a) d' evs =>
      match k a d' with
      | mk_outcome r d'' evs' => mk_outcome r d'' (evs ++ evs')
      end
    | mk_outcome (Raise e) d' evs => mk_outcome (Raise e) d' evs
    end.

Definition raise {A} (e : exn) : M A := fun d => mk_outcome (Raise e) d [].

Definition lift {A} (r : Res A) : M A := fun d => mk_outcome r d [].

Definition emit (ev : Event) : M unit := fun d => mk_outcome (Ok tt) d [ev].

Definition print (line : string) : M unit := emit (Print line).

Definition db_read {A} (f : DB -> A) : M A := fun d => mk_outcome (Ok (f d)) d [].

Definition db_write (f : DB -> DB) : M unit := fun d => mk_outcome (Ok tt) (f d) [].

(** [try: body except <classes selected by catches> as e: handler e]. *)
Definition try_except {A} (body : M A) (catches : exn -> bool) (handler : exn -> M A) : M A :=
  fun d =>
    match body d with
    | mk_outcome (Raise e) d' evs =>
      if catches e
      then
        match handler e d' with
        | mk_outcome r d'' evs' => mk_outcome r d'' (evs ++ evs')
        end
      else mk_outcome (Raise e) d' evs
    | o => o
    end.

Notation "x <- m ;; k" := (bind m (fun x => k))
  (at level 100, m at next level, right associativity).
Notation "m ;; k" := (bind m (fun _ => k))
  (at level 100, right associativity).

Definition is_HttpError (e : exn) : bool :=
  match exn_cls e with
  | HttpError => true
  | _ => false
  end.

Definition is_KeyboardInterrupt (e : exn) : bool :=
  match exn_cls e with
  | KeyboardInterrupt => true
  | _ => false
  end.

Definition get_document_content (w : World) (fid : string) : M (option string) :=
  try_except
    (content <- lift (export_media w fid) ;; ret (Some content))
    is_HttpError
    (fun error =>
       print ("Error fetching document " +:+ fid +:+ ": " +:+ exn_str error) ;;
       ret None).

Definition get_file_metadata (w : World) (fid : string) : M (option Metadata) :=
  try_except
    (file <- lift (files_get w fid) ;; ret (Some file))
    is_HttpError
    (fun error =>
       print ("Error fetching metadata for " +:+ fid +:+ ": " +:+ exn_str error) ;;
       ret None).

(** [hashlib.md5(content.encode(utf-8)).hexdigest()]; a string stands
    for its UTF-8 bytes. *)
Definition compute_content_hash (content : string) : string := Md5.hexdigest content.

(** The decision of lines 168-177 of [process_document], on the stored
    record (if any) and the fetched content. *)
Inductive Classification := New | Changed | Unchanged.

Definition classify (existing_doc : option WatchedDocument) (content : string) : Classification :=
  match existing_doc with
  | Some doc =>
    if String.eqb (content_hash doc) (compute_content_hash content) then Unchanged else Changed
  | None => New
  end.

Definition formatted_content (metadata : Metadata) (content : string) : string :=
  str1 nl +:+ "Meeting Notes from: " +:+ md_name metadata +:+ str1 nl
  +:+ "Last Modified: " +:+ md_modifiedTime metadata +:+ str1 nl
  +:+ "Link: " +:+ default "N/A" (md_webViewLink metadata) +:+ str1 nl
  +:+ str1 nl
  +:+ "Content:" +:+ str1 nl
  +:+ content +:+ str1 nl
  +:+ str1 nl
  +:+ "Please remember this information for future queries about onboarding, meetings, and project context."
  +:+ str1 nl.

(** The streamed call of lines 215-223: the request goes out, then the
    fragments of type [content_streaming] are collected until the stream
    ends or raises. *)
Definition stream_message (w : World) (key thread content : string) : M (list string) :=
  emit (AddMessage key thread content) ;;
  match snd (add_message w key thread content) with
  | Some e => raise e
  | None =>
    ret (map chunk_content
             (filter (fun chunk => String.eqb (chunk_type chunk) "content_streaming")
                     (fst (add_message w key thread content))))
  end.

(** Lines 179-242: the [try] block and its [except Exception]. *)
Definition send_to_backboard (w : World) (fid cid : string) (metadata : Metadata)
    (content hash : string) (existing_doc : option WatchedDocument) : M unit :=
  try_except
    (client <- db_read (fun d => lookup_client d cid) ;;
     match client with
     | None => print ("Client " +:+ cid +:+ " not found")
     | Some client =>
       decrypted_api_key <- lift (fernet_decrypt w (c_api_key client)) ;;
       assistant <- db_read (fun d => lookup_assistant d cid) ;;
       match assistant with
       | None => print ("No assistant found for client " +:+ cid)
       | Some assistant =>
         let assistant_id := a_assistant_id assistant in
         emit (CreateThread decrypted_api_key assistant_id) ;;
         thread <- lift (create_thread w decrypted_api_key assistant_id) ;;
         output <- stream_message w decrypted_api_key thread (formatted_content metadata content) ;;
         let response := join output in
         print ("Successfully sent to Backboard: " +:+ md_name metadata) ;;
         match existing_doc with
         | Some _ =>
           emit (UpdateDriveDocument fid hash content) ;;
           db_write (fun d => update_drive_document d fid hash content)
         | None =>
           let doc := mk_doc fid cid (md_name metadata) hash (md_modifiedTime metadata) content in
           emit (CreateDriveDocument doc) ;;
           db_write (fun d => create_drive_document d doc)
         end
       end
     end)
    is_Exception
    (fun e => print ("Error sending to Backboard: " +:+ exn_str e)).

(** Lines 164-242: what happens to a document once its metadata and a
    non-empty content are at hand. *)
Definition process_fetched (w : World) (fid cid : string) (metadata : Metadata)
    (content : string) : M unit :=
  let hash := compute_content_hash content in
  existing_doc <- db_read (fun d => lookup_drive_document d fid) ;;
  match existing_doc with
  | Some doc =>
    if String.eqb (content_hash doc) hash
    then print ("No changes detected in " +:+ md_name metadata)
    else
      print ("Changes detected in " +:+ md_name metadata) ;;
      send_to_backboard w fid cid metadata content hash existing_doc
  | None =>
    print ("Processing new document: " +:+ md_name metadata) ;;
    send_to_backboard w fid cid metadata content hash existing_doc
  end.

(** Lines 144-242. [if not content] holds of [None] and of the empty
    string. *)
Definition process_document (w : World) (fid cid : string) : M unit :=
  metadata <- get_file_metadata w fid ;;
  match metadata with
  | None => print ("Failed to get metadata for file " +:+ fid)
  | Some metadata =>
    content <- get_document_content w fid ;;
    match content with
    | None | Some EmptyString => print ("Failed to extract content from file " +:+ fid)
    | Some content => process_fetched w fid cid metadata content
    end
  end.

(** The [for] loop of a cycle. *)
Fixpoint for_each (ids : list string) (body : string -> M unit) : M unit :=
  match ids with
  | [] => ret tt
  | fid :: ids' => body fid ;; for_each ids' body
  end.

Inductive Control := Continue | Break.

(** One turn of the [while True] of [poll_documents], lines 260-273. *)
Definition poll_cycle (w : World) (file_ids : list string) (cid : string) (interval : Z)
    : M Control :=
  fun d =>
    match (for_each file_ids (fun fid => process_document w fid cid) ;;
           print ("Waiting " +:+ str_of_Z interval +:+ " seconds before next poll...") ;;
           emit (Sleep interval) ;;
           lift (sleep w interval)) d with
    | mk_outcome (Ok _) d' evs => mk_outcome (Ok Continue) d' evs
    | mk_outcome (Raise e) d' evs =>
      if is_KeyboardInterrupt e
      then mk_outcome (Ok Break) d'
             (evs ++ [Print (str1 nl +:+ "Stopping Drive polling...")])
      else if is_Exception e
      then
        match (print ("Error during polling: " +:+ exn_str e) ;;
               emit (Sleep interval) ;;
               lift (sleep w interval) ;;
               ret Continue) d' with
        | mk_outcome r d'' evs' => mk_outcome r d'' (evs ++ evs')
        end
      else mk_outcome (Raise e) d' evs
    end.

(** The loop never ends by itself; [ws] gives the collaborators of each
    of the cycles that are observed. *)
Fixpoint poll_loop (ws : list World) (file_ids : list string) (cid : string) (interval : Z)
    : M unit :=
  match ws with
  | [] => ret tt
  | w :: ws' =>
    ctl <- poll_cycle w file_ids cid interval ;;
    match ctl with
    | Continue => poll_loop ws' file_ids cid interval
    | Break => ret tt
    end
  end.

Definition poll_documents (ws : list World) (file_ids : list string) (cid : string)
    (interval : Z) : M unit :=
  print ("Starting Drive polling for " +:+ str_of_nat (length file_ids)
         +:+ " documents (interval: " +:+ str_of_Z interval +:+ "s)") ;;
  poll_loop ws file_ids cid interval.

(** Counting what a trace holds. *)
Definition is_forward (ev : Event) : bool :=
  match ev with
  | AddMessage _ _ _ => true
  | _ => false
  end.

Definition is_store_write (ev : Event) : bool :=
  match ev with
  | CreateDriveDocument _ | UpdateDriveDocument _ _ _ => true
  | _ => false
  end.

Definition forwards (tr : list Event) : list Event := filter (fun ev => is_forward ev) tr.
Definition store_writes (tr : list Event) : list Event := filter (fun ev => is_store_write ev) tr.

End Drive.

(** ** The [datetime] module *)

Module Datetime.
Import Py.

(** A [datetime]: its wall-clock reading in microseconds since
    0001-01-01T00:00:00, and its UTC offset when it is aware. *)
Record datetime := mk_dt { naive_us : Z; utcoffset : option Z }.

(** [d.replace(tzinfo=None)]: the same reading, made naive. *)
Definition replace_tzinfo_none (d : datetime) : Z := naive_us d.

(** Microseconds from [datetime.min] to [datetime.max]. *)
Definition max_us : Z := 3652059 * 86400000000 - 1.

(** [timedelta(hours=h)] in microseconds. The day count is converted to
    a C [int] and then checked against the bound of [timedelta]. *)
Definition timedelta_hours (h : Z) : Res Z :=
  let days := h / 24 in
  if ((days <? - 2147483648) || (2147483647 <? days))%bool
  then Raise (mk_exn OverflowError "Python int too large to convert to C int")
  else if 999999999 <? Z.abs days
  then Raise (mk_exn OverflowError
         ("days=" +:+ str_of_Z days +:+ "; must have magnitude <= 999999999"))
  else Ok (h * 3600000000).

(** [t - delta] on a naive [datetime]. *)
Definition datetime_sub (t delta : Z) : Res Z :=
  let r := t - delta in
  if ((r <? 0) || (max_us <? r))%bool
  then Raise (mk_exn OverflowError "date value out of range")
  else Ok r.

End Datetime.

(** ** tools.py *)

Module Tools.
Import Py Datetime.

(** A memory as [get_memories] lists it; every key is read with
    [dict.get], so each may be missing. *)
Record MemMetadata := mk_mmeta { m_source : option string; m_ingested_at : option string }.

Record Memory := mk_memory {
  mem_content : option string;
  mem_metadata : option MemMetadata;
  mem_memory_id : option string
}.

Record BackboardClient := mk_backboard { get_memories : string -> Res (list Memory) }.

(** The preview that goes into a bucket. *)
Record MemoryEntry := mk_entry {
  e_content : string;
  e_ingested_at : string;
  e_memory_id : option string
}.

Record RecentContext := mk_context {
  telegram : list MemoryEntry;
  drive : list MemoryEntry;
  github : list MemoryEntry
}.

(** The values of a result dictionary. *)
Inductive value :=
| VStr (s : string)
| VInt (z : Z)
| VContext (c : RecentContext).

Abbreviation ToolResult := (gmap string value).

(** Line 23: an at sign, an optional quote, [(\w+)], an optional quote. *)
Definition tool_pattern : Re.regex :=
  Re.Seq (Re.Chr (Re.is_char "@"))
    (Re.Seq (Re.Opt is_quote) (Re.Seq (Re.Group (Re.Plus is_word)) (Re.Opt is_quote))).

Definition detect_tool_invocation (content : string) : option string :=
  match Re.search tool_pattern content with
  | Some m => Re.group1 m
  | None => None
  end.

(** [match.group(1)] where the group took part. *)
Definition group (m : Re.found) : string := default EmptyString (Re.group1 m).

(** Line 294: the word filename, [[:\s]+], an optional quote, a group of
    non-quote characters, an optional quote; case-insensitive. *)
Definition filename_pattern : Re.regex :=
  Re.lit_ci "filename"
    (Re.Seq (Re.Plus Re.colon_or_space)
       (Re.Seq (Re.Opt is_quote) (Re.Seq (Re.Group (Re.Plus Re.not_quote)) (Re.Opt is_quote)))).

(** Line 295: the word content, [[:\s]+], a quote, a lazy group of any
    characters, a quote; case-insensitive, the dot matches line ends. *)
Definition content_pattern : Re.regex :=
  Re.lit_ci "content"
    (Re.Seq (Re.Plus Re.colon_or_space)
       (Re.Seq (Re.Chr is_quote) (Re.Seq (Re.Group (Re.PlusLazy Re.any_char)) (Re.Chr is_quote)))).

(** Line 317: [hours?[:\s]+(\d+)], case-insensitive. *)
Definition hours_pattern : Re.regex :=
  Re.lit_ci "hour"
    (Re.Seq (Re.Opt (Re.is_char_ci "s"))
       (Re.Seq (Re.Plus Re.colon_or_space) (Re.Group (Re.Plus is_digit)))).

(** Line 326: as for the file name, after the word topic. *)
Definition topic_pattern : Re.regex :=
  Re.lit_ci "topic"
    (Re.Seq (Re.Plus Re.colon_or_space)
       (Re.Seq (Re.Opt is_quote) (Re.Seq (Re.Group (Re.Plus Re.not_quote)) (Re.Opt is_quote)))).

Definition handle_create_file (client_id filename content : string)
    (backboard_client : BackboardClient) (assistant_id : string) : ToolResult :=
  {[ "tool" := VStr "create_file";
     "status" := VStr "ready";
     "filename" := VStr filename;
     "content" := VStr content;
     "message" := VStr ("File creation request prepared: " +:+ filename) ]}.

Definition rbind {A B} (r : Res A) (k : A -> Res B) : Res B :=
  match r with
  | Ok a => k a
  | Raise e => Raise e
  end.

Definition is_AttributeError (e : exn) : bool :=
  match exn_cls e with
  | AttributeError => true
  | _ => false
  end.

(** Lines 79-84 and 190-194: the query, with its fallback when the client
    has no [get_memories]. *)
Definition query_memories (backboard_client : BackboardClient) (assistant_id : string)
    : Res (list Memory) :=
  match get_memories backboard_client assistant_id with
  | Raise e => if is_AttributeError e then Ok [] else Raise e
  | Ok memories => Ok memories
  end.

Definition format_items (items : list MemoryEntry) : string :=
  join (map (fun item => "  • " +:+ e_content item +:+ str1 nl) (take 5 items)).

Definition format_recent_context (context : RecentContext) (hours : Z) : string :=
  let telegram_count := length (telegram context) in
  let drive_count := length (drive context) in
  let github_count := length (github context) in
  "📊 Recent Activity (Last " +:+ str_of_Z hours +:+ " hours)" +:+ str1 nl +:+ str1 nl
  +:+ (if Nat.ltb 0 telegram_count
       then "📢 Chat Decisions (Source: Telegram) - " +:+ str_of_nat telegram_count
            +:+ " items" +:+ str1 nl +:+ format_items (telegram context) +:+ str1 nl
       else EmptyString)
  +:+ (if Nat.ltb 0 drive_count
       then "📄 New Specs (Source: Drive) - " +:+ str_of_nat drive_count
            +:+ " items" +:+ str1 nl +:+ format_items (drive context) +:+ str1 nl
       else EmptyString)
  +:+ (if Nat.ltb 0 github_count
       then "💻 Code Changes (Source: Github) - " +:+ str_of_nat github_count
            +:+ " items" +:+ str1 nl +:+ format_items (github context) +:+ str1 nl
       else EmptyString)
  +:+ (if (Nat.eqb telegram_count 0 && Nat.eqb drive_count 0 && Nat.eqb github_count 0)%bool
       then "No recent activity found in the specified time period." +:+ str1 nl
       else EmptyString).

Definition source_of (memory : Memory) : string :=
  match mem_metadata memory with
  | Some metadata => default "unknown" (m_source metadata)
  | None => "unknown"
  end.

Definition ingested_at_of (memory : Memory) : option string :=
  match mem_metadata memory with
  | Some metadata => m_ingested_at metadata
  | None => None
  end.

Section WithClock.

(** [datetime.fromisoformat]; [None] stands for its [ValueError]. *)
Variable fromisoformat : string -> option datetime.

(** The body of the loop of lines 97-121. *)
Definition group_memory (cutoff_time : Z) (recent_context : RecentContext) (memory : Memory)
    : RecentContext :=
  let source := source_of memory in
  match ingested_at_of memory with
  | None | Some EmptyString => recent_context
  | Some ingested_at_str =>
    match fromisoformat (replace "Z" "+00:00" ingested_at_str) with
    | None => recent_context
    | Some ingested_at =>
      if cutoff_time <=? replace_tzinfo_none ingested_at
      then
        let memory_entry :=
          mk_entry (take_str 200 (default EmptyString (mem_content memory)) +:+ "...")
                   ingested_at_str (mem_memory_id memory) in
        if String.eqb (lower source) "telegram"
        then mk_context (telegram recent_context ++ [memory_entry])
                        (drive recent_context) (github recent_context)
        else if String.eqb (lower source) "drive"
        then mk_context (telegram recent_context)
                        (drive recent_context ++ [memory_entry]) (github recent_context)
        else if (String.eqb (lower source) "github" || String.eqb (lower source) "git")%bool
        then mk_context (telegram recent_context) (drive recent_context)
                        (github recent_context ++ [memory_entry])
        else recent_context
      else recent_context
    end
  end.

Definition error_result (tool : string) (e : exn) : ToolResult :=
  {[ "tool" := VStr tool; "status" := VStr "error"; "error" := VStr (exn_str e) ]}.

(** [try: body except Exception as e: return the error result]. *)
Definition catch_Exception (tool : string) (body : Res ToolResult) : Res ToolResult :=
  match body with
  | Raise e => if is_Exception e then Ok (error_result tool e) else Raise e
  | r => r
  end.

(** Lines 59-138. [now] is what [datetime.now()] reads. *)
Definition handle_get_recent_context (now : Z) (client_id : string) (hours : Z)
    (backboard_client : BackboardClient) (assistant_id : string) : Res ToolResult :=
  catch_Exception "get_recent_context"
    (rbind (query_memories backboard_client assistant_id) (fun memories =>
     rbind (timedelta_hours hours) (fun delta =>
     rbind (datetime_sub now delta) (fun cutoff_time =>
       let recent_context :=
         fold_left (group_memory cutoff_time) memories (mk_context [] [] []) in
       let formatted_response := format_recent_context recent_context hours in
       Ok ({[ "tool" := VStr "get_recent_context";
              "status" := VStr "success";
              "hours" := VInt hours;
              "context" := VContext recent_context;
              "formatted" := VStr formatted_response ]} : ToolResult))))).

End WithClock.

(** Lines 233-244: the nodes of the three sources among the first ten
    memories, each with its position as identifier. *)
Fixpoint collect_nodes (i : nat) (memories : list Memory)
    (acc : list (string * string) * list (string * string) * list (string * string))
    : list (string * string) * list (string * string) * list (string * string) :=
  match memories with
  | [] => acc
  | memory :: memories' =>
    let '(telegram_nodes, drive_nodes, code_nodes) := acc in
    let source := lower (source_of memory) in
    let content := take_str 50 (default EmptyString (mem_content memory)) +:+ "..." in
    let node_id := "Node" +:+ str_of_nat i in
    collect_nodes (S i) memories'
      (if String.eqb source "telegram"
       then ((telegram_nodes ++ [(node_id, content)])%list, drive_nodes, code_nodes)
       else if String.eqb source "drive"
       then (telegram_nodes, (drive_nodes ++ [(node_id, content)])%list, code_nodes)
       else if (String.eqb source "github" || String.eqb source "git")%bool
       then (telegram_nodes, drive_nodes, (code_nodes ++ [(node_id, content)])%list)
       else acc)
  end.

Definition quoted (s : string) : string := str1 dq +:+ s +:+ str1 dq.

Definition edges (parent : string) (nodes : list (string * string)) : string :=
  join (map (fun node => "    " +:+ parent +:+ " --> " +:+ fst node
                         +:+ "[" +:+ quoted (snd node) +:+ "]" +:+ str1 nl) nodes).

Definition is_nil {A} (l : list A) : bool :=
  match l with
  | [] => true
  | _ => false
  end.

Definition build_mermaid_graph (topic : string) (memories : list Memory) : string :=
  let '(telegram_nodes, drive_nodes, code_nodes) :=
    collect_nodes 0 (take 10 memories) ([], [], []) in
  "graph TD" +:+ str1 nl
  +:+ "    Start[" +:+ quoted topic +:+ "]" +:+ str1 nl
  +:+ (if is_nil telegram_nodes then EmptyString
       else "    Start --> Telegram[" +:+ quoted "Telegram Discussions" +:+ "]" +:+ str1 nl
            +:+ edges "Telegram" telegram_nodes)
  +:+ (if is_nil drive_nodes then EmptyString
       else "    Start --> Drive[" +:+ quoted "Drive Documents" +:+ "]" +:+ str1 nl
            +:+ edges "Drive" drive_nodes)
  +:+ (if is_nil code_nodes then EmptyString
       else "    Start --> Code[" +:+ quoted "Code Implementation" +:+ "]" +:+ str1 nl
            +:+ edges "Code" code_nodes)
  +:+ (if (is_nil telegram_nodes && is_nil drive_nodes && is_nil code_nodes)%bool
       then "    Start --> NoData[" +:+ quoted "No related data found" +:+ "]" +:+ str1 nl
       else EmptyString).

Definition handle_generate_mermaid_graph (client_id topic : string)
    (backboard_client : BackboardClient) (assistant_id : string) : Res ToolResult :=
  catch_Exception "generate_mermaid_graph"
    (rbind (query_memories backboard_client assistant_id) (fun memories =>
       let related_memories :=
         filter (fun memory =>
                   contains (lower topic) (lower (default EmptyString (mem_content memory))) = true)
                memories in
       let mermaid_syntax := build_mermaid_graph topic related_memories in
       Ok ({[ "tool" := VStr "generate_mermaid_graph";
              "status" := VStr "success";
              "topic" := VStr topic;
              "mermaid" := VStr mermaid_syntax;
              "formatted" := VStr ("```mermaid" +:+ str1 nl +:+ mermaid_syntax
                                   +:+ str1 nl +:+ "```") ]} : ToolResult))).

Section Router.

Variable fromisoformat : string -> option datetime.

(** Lines 268-338. *)
Definition execute_tool (now : Z) (tool_name client_id content : string)
    (backboard_client : BackboardClient) (assistant_id : string) : Res ToolResult :=
  if String.eqb tool_name "create_file" then
    let filename_match := Re.search filename_pattern content in
    let content_match := Re.search content_pattern content in
    let filename :=
      match filename_match with
      | Some m => group m
      | None => "docs/ONBOARDING.md"
      end in
    let file_content :=
      match content_match with
      | Some m => group m
      | None => EmptyString
      end in
    match file_content with
    | EmptyString =>
      Ok {[ "tool" := VStr "create_file";
            "status" := VStr "pending_content";
            "filename" := VStr filename;
            "message" := VStr ("Please provide the content for " +:+ filename) ]}
    | _ => Ok (handle_create_file client_id filename file_content backboard_client assistant_id)
    end
  else if String.eqb tool_name "get_recent_context" then
    let hours_match := Re.search hours_pattern content in
    rbind (match hours_match with
           | Some m => int_of_digits (group m)
           | None => Ok 24
           end)
          (fun hours =>
             handle_get_recent_context fromisoformat now client_id hours
                                       backboard_client assistant_id)
  else if String.eqb tool_name "generate_mermaid_graph" then
    let topic_match := Re.search topic_pattern content in
    let topic :=
      match topic_match with
      | Some m => group m
      | None => strip (replace ("@" +:+ tool_name) EmptyString content)
      end in
    handle_generate_mermaid_graph client_id topic backboard_client assistant_id
  else
    Ok {[ "tool" := VStr tool_name;
          "status" := VStr "error";
          "error" := VStr ("Unknown tool: " +:+ tool_name) ]}.

End Router.

End Tools.

(** ** Statements about the poller *)

Module DriveSpec.
Import Py Db Drive.

(** The forward goes through: every step of the [try] block returns. *)
Inductive forward_succeeds (w : World) (d : DB) (cid content : string)
    (key thread : string) : Prop :=
| forward_ok client assistant :
    lookup_client d cid = Some client ->
    fernet_decrypt w (c_api_key client) = Ok key ->
    lookup_assistant d cid = Some assistant ->
    create_thread w key (a_assistant_id assistant) = Ok thread ->
    snd (add_message w key thread content) = None ->
    forward_succeeds w d cid content key thread.

(** A step of the [try] block raises [e]: the decryption, the creation
    of the thread, or the streamed submission. *)
Inductive forward_raises (w : World) (d : DB) (cid content : string) (e : exn) : Prop :=
| raises_in_decrypt client :
    lookup_client d cid = Some client ->
    fernet_decrypt w (c_api_key client) = Raise e ->
    forward_raises w d cid content e
| raises_in_create_thread client key assistant :
    lookup_client d cid = Some client ->
    fernet_decrypt w (c_api_key client) = Ok key ->
    lookup_assistant d cid = Some assistant ->
    create_thread w key (a_assistant_id assistant) = Raise e ->
    forward_raises w d cid content e
| raises_in_add_message client key assistant thread :
    lookup_client d cid = Some client ->
    fernet_decrypt w (c_api_key client) = Ok key ->
    lookup_assistant d cid = Some assistant ->
    create_thread w key (a_assistant_id assistant) = Ok thread ->
    snd (add_message w key thread content) = Some e ->
    forward_raises w d cid content e.

(** The store request that follows a forward, and the database after it. *)
Definition upsert (d : DB) (fid cid : string) (metadata : Metadata) (content : string)
    (existing_doc : option WatchedDocument) : Event * DB :=
  match existing_doc with
  | Some _ =>
    (UpdateDriveDocument fid (compute_content_hash content) content,
     update_drive_document d fid (compute_content_hash content) content)
  | None =>
    let doc := mk_doc fid cid (md_name metadata) (compute_content_hash content)
                      (md_modifiedTime metadata) content in
    (CreateDriveDocument doc, create_drive_document d doc)
  end.

(** The effects of processing one document as the specification words
    them: nothing on equal hashes, one forward and one store write
    otherwise. *)
Definition spec_poll_effects (w : World) (fid cid : string) (d : DB) : Prop :=
  forall metadata content,
    files_get w fid = Ok metadata ->
    export_media w fid = Ok content ->
    let o := process_document w fid cid d in
    match classify (lookup_drive_document d fid) content with
    | Unchanged =>
      forwards (events o) = [] /\ store_writes (events o) = [] /\ final_db o = d
    | Changed | New =>
      length (forwards (events o)) = 1%nat /\ length (store_writes (events o)) = 1%nat
    end.

(** The specification on empty content: it goes the way of any other
    content, so a new or changed document is forwarded. *)
Definition spec_empty_content_forwarded (w : World) (fid cid : string) (d : DB) : Prop :=
  forall metadata key thread,
    files_get w fid = Ok metadata ->
    export_media w fid = Ok EmptyString ->
    classify (lookup_drive_document d fid) EmptyString <> Unchanged ->
    forward_succeeds w d cid (formatted_content metadata EmptyString) key thread ->
    forwards (events (process_document w fid cid d))
    = [AddMessage key thread (formatted_content metadata EmptyString)].

End DriveSpec.

(** ** Sample collaborators and databases *)

Module Fixtures.
Import Py Db Drive.

Definition notes : Metadata :=
  mk_meta "Kickoff notes" "2024-02-02T10:00:00.000Z"
          (Some "https://docs.google.com/document/d/doc-1/edit").

(** Everything answers. *)
Definition world_ok : World :=
  mk_world (fun _ => Ok notes)
           (fun _ => Ok "hello")
           (fun k => Ok ("plain-" +:+ k))
           (fun _ _ => Ok "thread-1")
           (fun _ _ _ => ([mk_chunk "content_streaming" "Noted."], None))
           (fun _ => Ok tt).

(** The document has become empty. *)
Definition world_empty : World :=
  mk_world (fun _ => Ok notes)
           (fun _ => Ok EmptyString)
           (fun k => Ok ("plain-" +:+ k))
           (fun _ _ => Ok "thread-1")
           (fun _ _ _ => ([mk_chunk "content_streaming" "Noted."], None))
           (fun _ => Ok tt).

(** The backend refuses the thread of [doc-1]'s client; everything else
    answers. *)
Definition world_backend_down : World :=
  mk_world (fun _ => Ok notes)
           (fun _ => Ok "hello")
           (fun k => Ok ("plain-" +:+ k))
           (fun _ _ => Raise (mk_exn RuntimeError "backend unavailable"))
           (fun _ _ _ => ([], None))
           (fun _ => Ok tt).

Definition db_empty : DB := mk_db ∅ [] ∅.

(** Client ALEX with its assistant; no document yet. *)
Definition db_registered : DB :=
  mk_db {[ "ALEX" := "gAAAAA" ]} [("asst-1", "ALEX")] ∅.

(** The same with [doc-1] stored from an earlier state of the document. *)
Definition db_tracked : DB :=
  mk_db {[ "ALEX" := "gAAAAA" ]} [("asst-1", "ALEX")]
        {[ "doc-1" := mk_doc "doc-1" "ALEX" "Kickoff notes"
                             (compute_content_hash "draft")
                             "2024-01-01T09:00:00.000Z" "draft" ]}.

End Fixtures.

(** ** Statements about the tool layer *)

Module ToolSpec.
Import Py Datetime Tools.

(** The longest prefix of [s] made of characters of the class [p], and
    what follows it. *)
Fixpoint run_of (p : ascii -> bool) (s : string) : string :=
  match s with
  | String c s' => if p c then String c (run_of p s') else EmptyString
  | EmptyString => EmptyString
  end.

Fixpoint rest_of (p : ascii -> bool) (s : string) : string :=
  match s with
  | String c s' => if p c then rest_of p s' else s
  | EmptyString => EmptyString
  end.

(** [s] without its first character when that is a quote. *)
Definition skip_quote (s : string) : string :=
  match s with
  | String q s' => if is_quote q then s' else s
  | EmptyString => s
  end.

(** A marker as the detector takes it: an at sign, at most one quote
    character, and an identifier, which is the longest run of word
    characters there. Nothing is asked of what follows the identifier. *)
Definition marker_here (s : string) : option string :=
  match s with
  | String a t =>
    if Ascii.eqb a "@"
    then match run_of is_word (skip_quote t) with
         | EmptyString => None
         | w => Some w
         end
    else None
  | EmptyString => None
  end.

(** The identifier of the leftmost marker. *)
Fixpoint first_marker (s : string) : option string :=
  match marker_here s with
  | Some w => Some w
  | None =>
    match s with
    | String _ s' => first_marker s'
    | EmptyString => None
    end
  end.

(** A marker in the grammar of the specification: an at sign followed
    at once by an identifier, or by an identifier wrapped in the same
    quote on each side. *)
Definition spec_marker_here (s : string) : option string :=
  match s with
  | String a t =>
    if Ascii.eqb a "@"
    then match t with
         | String q t' =>
           if is_quote q
           then match run_of is_word t', rest_of is_word t' with
                | String c w, String q' _ =>
                  if Ascii.eqb q q' then Some (String c w) else None
                | _, _ => None
                end
           else match run_of is_word t with
                | EmptyString => None
                | w => Some w
                end
         | EmptyString => None
         end
    else None
  | EmptyString => None
  end.

(** The detector of the specification: the identifier of the first
    marker of its grammar, absent when there is none. *)
Fixpoint spec_detect (s : string) : option string :=
  match spec_marker_here s with
  | Some w => Some w
  | None =>
    match s with
    | String _ s' => spec_detect s'
    | EmptyString => None
    end
  end.

(** Every character of [s] is a word character. *)
Fixpoint all_word (s : string) : bool :=
  match s with
  | String c s' => (is_word c && all_word s')%bool
  | EmptyString => true
  end.

(** [s] does not begin with a word character. *)
Definition no_word_ahead (s : string) : bool :=
  match s with
  | String c _ => negb (is_word c)
  | EmptyString => true
  end.

(** [s] holds no at sign. *)
Fixpoint no_at (s : string) : bool :=
  match s with
  | String c s' => (negb (Ascii.eqb c "@") && no_at s')%bool
  | EmptyString => true
  end.

(** What matters of a list of matches: whether there is one, and the
    group of the first. *)
Definition outline (l : list Re.found) : option (option string) :=
  match l with
  | m :: _ => Some (Re.group1 m)
  | [] => None
  end.

(** The identifier and the optional closing quote of [tool_pattern]. *)
Definition ident_tail : Re.regex :=
  Re.Seq (Re.Group (Re.Plus is_word)) (Re.Opt is_quote).

(** The group of a match took part and is not empty. *)
Definition group_filled (m : Re.found) : bool :=
  match Re.group1 m with
  | Some (String _ _) => true
  | _ => false
  end.

End ToolSpec.

(** ** Statements about the handlers and the router *)

Module RouterSpec.
Import Py Datetime Tools.

(** The values the [status] key of a result takes. *)
Definition statuses : list string := ["success"; "error"; "pending_content"; "ready"].

Definition is_status (s : string) : bool := existsb (String.eqb s) statuses.

(** The [status] of a result dictionary, when it has one and it is a
    string. *)
Definition status_of (r : ToolResult) : option string :=
  match r !! "status" with
  | Some (VStr s) => Some s
  | _ => None
  end.

(** A call returned, and what it returned carries one of the statuses. *)
Definition structured (r : Res ToolResult) : bool :=
  match r with
  | Ok d =>
    match status_of d with
    | Some s => is_status s
    | None => false
    end
  | Raise _ => false
  end.

(** The status a call came back with, when it returned. *)
Definition returned_status (r : Res ToolResult) : option string :=
  match r with
  | Ok d => status_of d
  | Raise _ => None
  end.

(** The [context] of a returned result. *)
Definition context_of (r : Res ToolResult) : option RecentContext :=
  match r with
  | Ok d =>
    match d !! "context" with
    | Some (VContext c) => Some c
    | _ => None
    end
  | Raise _ => None
  end.

Inductive Bucket := Telegram | Drive | Github.

Definition bucket (c : RecentContext) (b : Bucket) : list MemoryEntry :=
  match b with
  | Telegram => telegram c
  | Drive => drive c
  | Github => github c
  end.

Definition Bucket_eqb (a b : Bucket) : bool :=
  match a, b with
  | Telegram, Telegram | Drive, Drive | Github, Github => true
  | _, _ => false
  end.

(** The bucket the source tag of a memory names, whatever its case. *)
Definition bucket_of (memory : Memory) : option Bucket :=
  let source := lower (source_of memory) in
  if String.eqb source "telegram" then Some Telegram
  else if String.eqb source "drive" then Some Drive
  else if (String.eqb source "github" || String.eqb source "git")%bool then Some Github
  else None.

Definition bucket_is (b : Bucket) (memory : Memory) : bool :=
  match bucket_of memory with
  | Some b' => Bucket_eqb b b'
  | None => false
  end.

(** The entry a bucket holds for a memory. *)
Definition entry_of (memory : Memory) : MemoryEntry :=
  mk_entry (take_str 200 (default EmptyString (mem_content memory)) +:+ "...")
           (default EmptyString (ingested_at_of memory))
           (mem_memory_id memory).

Section Window.

Variable fromisoformat : string -> option datetime.

(** The wall-clock reading of the timestamp of a memory, when it has a
    non-empty one that parses. *)
Definition ingested (memory : Memory) : option Z :=
  match ingested_at_of memory with
  | None | Some EmptyString => None
  | Some ingested_at_str =>
    option_map replace_tzinfo_none (fromisoformat (replace "Z" "+00:00" ingested_at_str))
  end.

(** The window the handler tests: from the cutoff on, the cutoff
    included, with no end. *)
Definition in_code_window (cutoff_time : Z) (memory : Memory) : bool :=
  match ingested memory with
  | Some t => cutoff_time <=? t
  | None => false
  end.

(** The window of the specification: after [now - hours], up to [now]. *)
Definition in_spec_window (now hours : Z) (memory : Memory) : bool :=
  match ingested memory with
  | Some t => ((now - hours * 3600000000 <? t) && (t <=? now))%bool
  | None => false
  end.

(** The entries of the memories a window keeps and a bucket takes, in
    the order of the list. *)
Definition selected (keep : Memory -> bool) (b : Bucket) (memories : list Memory)
    : list MemoryEntry :=
  map entry_of (List.filter (fun memory => (keep memory && bucket_is b memory)%bool) memories).

(** The membership the specification states: each bucket of the result
    holds what its window keeps. *)
Definition spec_bucket_membership (now hours : Z) (memories : list Memory) : Prop :=
  forall client_id assistant_id b,
    option_map (fun c => bucket c b)
      (context_of (handle_get_recent_context fromisoformat now client_id hours
                     (mk_backboard (fun _ => Ok memories)) assistant_id))
    = Some (selected (in_spec_window now hours) b memories).

(** The error contract the specification states for the query: whatever
    it raises comes back as an error result. *)
Definition spec_query_failure_reported (now : Z) (tool_name client_id text : string)
    (backboard_client : BackboardClient) (assistant_id : string) : Prop :=
  forall e, get_memories backboard_client assistant_id = Raise e ->
    execute_tool fromisoformat now tool_name client_id text backboard_client assistant_id
    = Ok (error_result tool_name e).

End Window.

End RouterSpec.

(** ** A reader of timestamps for the examples *)

Module Iso.
Import Py Datetime.

Fixpoint read_digits (n : nat) (s : string) (acc : Z) : option (Z * string) :=
  match n with
  | O => Some (acc, s)
  | S n' =>
    match s with
    | String c s' =>
      if is_digit c then read_digits n' s' (10 * acc + Z.of_nat (code c - 48)) else None
    | EmptyString => None
    end
  end.

Definition expect (c : ascii) (s : string) : option string :=
  match s with
  | String c' s' => if Ascii.eqb c c' then Some s' else None
  | EmptyString => None
  end.

Definition is_leap (y : Z) : bool :=
  ((y mod 4 =? 0) && (negb (y mod 100 =? 0) || (y mod 400 =? 0)))%bool.

Definition month_lengths (y : Z) : list Z :=
  [31; if is_leap y then 29 else 28; 31; 30; 31; 30; 31; 31; 30; 31; 30; 31].

Definition days_before_year (y : Z) : Z :=
  let p := y - 1 in 365 * p + p / 4 - p / 100 + p / 400.

Definition days_before_month (y m : Z) : Z :=
  fold_right Z.add 0 (firstn (Z.to_nat (m - 1)) (month_lengths y)).

Definition guard (b : bool) : option unit := if b then Some tt else None.

(** The offset [+HH:MM] or [-HH:MM], in microseconds. *)
Definition read_offset (s : string) : option Z :=
  match s with
  | String sign s =>
    sgn ← (if Ascii.eqb sign "+" then Some 1
           else if Ascii.eqb sign "-" then Some (-1) else None) ;
    '(h, s) ← read_digits 2 s 0 ;
    s ← expect ":" s ;
    '(mi, s) ← read_digits 2 s 0 ;
    _ ← guard ((h <? 24) && (mi <? 60) && String.eqb s EmptyString) ;
    Some (sgn * (h * 3600000000 + mi * 60000000))
  | EmptyString => None
  end.

(** Reads [YYYY-MM-DDTHH:MM:SS], alone or followed by an offset, as
    [datetime.fromisoformat] does. Other texts, some of which that
    function accepts, are refused here: the examples do not use them. *)
Definition fromisoformat (s : string) : option datetime :=
  '(y, s) ← read_digits 4 s 0 ;
  s ← expect "-" s ;
  '(mo, s) ← read_digits 2 s 0 ;
  s ← expect "-" s ;
  '(d, s) ← read_digits 2 s 0 ;
  s ← expect "T" s ;
  '(h, s) ← read_digits 2 s 0 ;
  s ← expect ":" s ;
  '(mi, s) ← read_digits 2 s 0 ;
  s ← expect ":" s ;
  '(sec, s) ← read_digits 2 s 0 ;
  _ ← guard ((1 <=? y) && (1 <=? mo) && (mo <=? 12) && (1 <=? d)
             && (d <=? nth (Z.to_nat (mo - 1)) (month_lengths y) 0)
             && (h <? 24) && (mi <? 60) && (sec <? 60)) ;
  let us := (days_before_year y + days_before_month y mo + (d - 1)) * 86400000000
            + h * 3600000000 + mi * 60000000 + sec * 1000000 in
  match s with
  | EmptyString => Some (mk_dt us None)
  | _ => off ← read_offset s ; Some (mk_dt us (Some off))
  end.

End Iso.

(** ** Memories and clients for the examples *)

Module ToolFixtures.
Import Py Datetime Tools.

(** 2024-01-02T12:00:00 on the clock of the handler. *)
Definition noon : Z := 63839793600000000.

Definition memory_from (source ingested_at content memory_id : string) : Memory :=
  mk_memory (Some content) (Some (mk_mmeta (Some source) (Some ingested_at))) (Some memory_id).

(** Ingested one hour before [noon]. *)
Definition drive_recent : Memory :=
  memory_from "drive" "2024-01-02T11:00:00" "Payment spec v2" "m-1".

(** Ingested thirty hours before [noon]. *)
Definition telegram_old : Memory :=
  memory_from "telegram" "2024-01-01T06:00:00" "We ship on Friday" "m-2".

(** Stamped one hour after [noon]. *)
Definition drive_ahead : Memory :=
  memory_from "Drive" "2024-01-02T13:00:00Z" "Roadmap draft" "m-3".

(** Ingested exactly twenty-four hours before [noon]. *)
Definition github_at_cutoff : Memory :=
  memory_from "git" "2024-01-01T12:00:00" "Fix login redirect" "m-4".

(** A timestamp that does not parse, and a source no bucket takes. *)
Definition drive_unreadable : Memory :=
  memory_from "drive" "yesterday" "Old notes" "m-5".

Definition slack_recent : Memory :=
  memory_from "slack" "2024-01-02T11:30:00" "Standup moved" "m-6".

Definition board_of (memories : list Memory) : BackboardClient :=
  mk_backboard (fun _ => Ok memories).

(** A client whose class has no [get_memories]. *)
Definition board_without_query : BackboardClient :=
  mk_backboard (fun _ =>
    Raise (mk_exn AttributeError "'BackboardClient' object has no attribute 'get_memories'")).

(** A client whose query fails on the network. *)
Definition board_down : BackboardClient :=
  mk_backboard (fun _ => Raise (mk_exn RuntimeError "connection refused")).

End ToolFixtures.

(** ** drive_service.py: registration and the URL helper *)

Module DriveSetup.
Import Py Db Drive.

(** Lines 275-301. The file must be reachable; a document that has no
    record yet gets one with an empty hash and an empty content. *)
Definition register_document_for_monitoring (w : World) (fid cid : string) : M unit :=
  metadata <- get_file_metadata w fid ;;
  match metadata with
  | None => raise (mk_exn ValueError ("Cannot access file " +:+ fid))
  | Some metadata =>
    existing <- db_read (fun d => lookup_drive_document d fid) ;;
    match existing with
    | None =>
      let doc := mk_doc fid cid (md_name metadata) EmptyString
                        (md_modifiedTime metadata) EmptyString in
      emit (CreateDriveDocument doc) ;;
      db_write (fun d => create_drive_document d doc) ;;
      print ("Registered document for monitoring: " +:+ md_name metadata)
    | Some _ => print ("Document already registered: " +:+ md_name metadata)
    end
  end.

(** [s.find(p)]: the index of the first occurrence; [None] is its -1. *)
Fixpoint find (p s : string) : option nat :=
  if startswith p s then Some O
  else match s with
       | EmptyString => None
       | String _ s' => option_map S (find p s')
       end.

(** [s.find(p, start)], for a [start] within the string. *)
Definition find_from (p s : string) (start : nat) : option nat :=
  option_map (Nat.add start) (find p (drop_str start s)).

(** [s[start:stop]] for [start <= stop]. *)
Definition slice (s : string) (start stop : nat) : string :=
  take_str (stop - start) (drop_str start s).

(** [s.strip(c)] for a single character. *)
Fixpoint lstrip_char (c : ascii) (s : string) : string :=
  match s with
  | String a s' => if Ascii.eqb a c then lstrip_char c s' else s
  | EmptyString => EmptyString
  end.

Fixpoint rstrip_char (c : ascii) (s : string) : string :=
  match s with
  | EmptyString => EmptyString
  | String a s' =>
    match rstrip_char c s' with
    | EmptyString => if Ascii.eqb a c then EmptyString else str1 a
    | r => String a r
    end
  end.

Definition strip_char (c : ascii) (s : string) : string := rstrip_char c (lstrip_char c s).

(** Lines 316-320. *)
Definition patterns : list string := ["/d/"; "id="; "/file/d/"].

(** Lines 324-336: the text a pattern that occurs in the URL delimits. *)
Definition delimited (pattern url : string) : string :=
  let start := (default O (find pattern url) + String.length pattern)%nat in
  let file_id :=
    match find_from "/" url start with
    | Some stop => slice url start stop
    | None =>
      match find_from "?" url start with
      | Some stop => slice url start stop
      | None => drop_str start url
      end
    end in
  strip_char "/" file_id.

(** The loop of lines 322-340 over the patterns that remain. *)
Fixpoint first_file_id (patterns : list string) (url : string) : option string :=
  match patterns with
  | [] => None
  | pattern :: patterns' =>
    if contains pattern url
    then match delimited pattern url with
         | EmptyString => first_file_id patterns' url
         | file_id => Some file_id
         end
    else first_file_id patterns' url
  end.

(** Lines 305-340. *)
Definition extract_file_id_from_url (url : string) : option string :=
  first_file_id patterns url.

(** No character of [s] is [c]. *)
Fixpoint free_of (c : ascii) (s : string) : bool :=
  match s with
  | String a s' => (negb (Ascii.eqb a c) && free_of c s')%bool
  | EmptyString => true
  end.

(** Every character of [s] is a lower-case hexadecimal digit. *)
Fixpoint all_hex (s : string) : bool :=
  match s with
  | String a s' => ((between 48 57 a || between 97 102 a) && all_hex s')%bool
  | EmptyString => true
  end.

(** What may follow the file id: nothing, a slash, or a question mark
    with no slash after it. *)
Definition ends_id (tail : string) : bool :=
  match tail with
  | EmptyString => true
  | String c t => (Ascii.eqb c "/" || (Ascii.eqb c "?" && free_of "/" t))%bool
  end.

End DriveSetup.

(** ** Collaborators that fail, for the examples *)

Module SetupFixtures.
Import Py Db Drive.

(** Drive answers 404 for every file. *)
Definition world_not_found : World :=
  mk_world (fun _ => Raise (mk_exn HttpError "<HttpError 404 File not found>"))
           (fun _ => Raise (mk_exn HttpError "<HttpError 404 File not found>"))
           (fun k => Ok ("plain-" +:+ k))
           (fun _ _ => Ok "thread-1")
           (fun _ _ _ => ([mk_chunk "content_streaming" "Noted."], None))
           (fun _ => Ok tt).

(** The connection to Drive drops while the metadata is read. *)
Definition world_offline : World :=
  mk_world (fun _ => Raise (mk_exn RuntimeError "connection reset"))
           (fun _ => Ok "hello")
           (fun k => Ok ("plain-" +:+ k))
           (fun _ _ => Ok "thread-1")
           (fun _ _ _ => ([mk_chunk "content_streaming" "Noted."], None))
           (fun _ => Ok tt).

(** Everything answers; the wait between two polls is interrupted from
    the keyboard. *)
Definition world_interrupted : World :=
  mk_world (fun _ => Ok Fixtures.notes)
           (fun _ => Ok "hello")
           (fun k => Ok ("plain-" +:+ k))
           (fun _ _ => Ok "thread-1")
           (fun _ _ _ => ([mk_chunk "content_streaming" "Noted."], None))
           (fun _ => Raise (mk_exn KeyboardInterrupt EmptyString)).

(** The document was renamed and edited after its registration. *)
Definition notes_later : Metadata :=
  mk_meta "Kickoff notes (final)" "2024-03-03T08:00:00.000Z"
          (Some "https://docs.google.com/document/d/doc-1/edit").

Definition world_later : World :=
  mk_world (fun _ => Ok notes_later)
           (fun _ => Ok "hello again")
           (fun k => Ok ("plain-" +:+ k))
           (fun _ _ => Ok "thread-1")
           (fun _ _ _ => ([mk_chunk "content_streaming" "Noted."], None))
           (fun _ => Ok tt).

End SetupFixtures.

(** ** db.py: the inserts and the chats table *)

Module Tables.
Import Py Db.

(** [sqlite3.IntegrityError]: an [INSERT] repeats a primary key. *)
Inductive sqlite_error := IntegrityError (message : string).

(** What an insert leaves: the table with the row, or the error and the
    table as it was. *)
Inductive Written (S : Type) :=
| Stored (s : S)
| Refused (e : sqlite_error).
Arguments Stored {S} s.
Arguments Refused {S} e.

(** Lines 56-64; [client_id] is the primary key of [clients]. *)
Definition create_client (d : DB) (client_id api_key : string) : Written DB :=
  match clients d !! client_id with
  | Some _ => Refused (IntegrityError "UNIQUE constraint failed: clients.client_id")
  | None =>
    Stored (mk_db (<[client_id := api_key]> (clients d)) (assistants d) (drive_documents d))
  end.

(** Lines 78-86; [assistant_id] is the primary key of [assistants], and
    a new row comes after the rows that are there. *)
Definition create_assistant (d : DB) (assistant_id client_id : string) : Written DB :=
  if existsb (fun row => String.eqb (fst row) assistant_id) (assistants d)
  then Refused (IntegrityError "UNIQUE constraint failed: assistants.assistant_id")
  else Stored (mk_db (clients d) (assistants d ++ [(assistant_id, client_id)])
                     (drive_documents d)).

(** The table [chats]: [chat_id] (primary key) to [channel_name] and
    [chat]. *)
Abbreviation Chats := (gmap string (string * string)).

Record Chat := mk_chat { ch_chat_id : string; ch_channel_name : string; ch_chat : string }.

(** Lines 89-98. *)
Definition lookup_thread (t : Chats) (chat_id : string) : option Chat :=
  match t !! chat_id with
  | Some row => Some (mk_chat chat_id (fst row) (snd row))
  | None => None
  end.

(** Lines 100-108. *)
Definition create_thread (t : Chats) (chat_id channel_name chat : string) : Written Chats :=
  match t !! chat_id with
  | Some _ => Refused (IntegrityError "UNIQUE constraint failed: chats.chat_id")
  | None => Stored (<[chat_id := (channel_name, chat)]> t)
  end.

End Tables.

(** ** server.py *)

Module Server.
Import Py Db Drive.

(** How an endpoint ends when it does not return. *)
Inductive failure :=
| HTTPException (status_code : Z) (detail : string)
| NameError (message : string)
| TypeError (message : string)
| Sqlite (e : Tables.sqlite_error)
| Raised (e : exn).

Inductive Reply (A : Type) :=
| Returned (a : A)
| Failed (f : failure).
Arguments Returned {A} a.
Arguments Failed {A} f.

(** Lines 23-41, [POST /client]. [encrypt_api_key] is the Fernet
    encryption of [encryption.py] at this call. Line 34 reads
    [decrypted_api_key], a name bound neither in the function nor in
    the module: the call raises [NameError] there, after the insert of
    line 32 is committed, and the lines that create the assistant are
    never reached. *)
Definition create_client (encrypt_api_key : string -> string) (d : DB)
    (client_id api_key : string) : DB * Reply unit :=
  match lookup_client d client_id with
  | Some _ => (d, Failed (HTTPException 409 "Client already exists!"))
  | None =>
    let encrypted_api_key := encrypt_api_key api_key in
    match Tables.create_client d client_id encrypted_api_key with
    | Tables.Refused e => (d, Failed (Sqlite e))
    | Tables.Stored d' => (d', Failed (NameError "name 'decrypted_api_key' is not defined"))
    end
  end.

(** Lines 45-64, [POST /messages/send]. The endpoint writes nothing to
    the database. *)
Definition add_thread (w : World) (d : DB) (client_id content : string) : Reply string :=
  match lookup_client d client_id with
  | None => Failed (HTTPException 404 "Client does not exist!")
  | Some client =>
    match fernet_decrypt w (c_api_key client) with
    | Raise e => Failed (Raised e)
    | Ok decrypted_api_key =>
      match lookup_assistant d client_id with
      | None => Failed (TypeError "'NoneType' object is not subscriptable")
      | Some assistant =>
        match Drive.create_thread w decrypted_api_key (a_assistant_id assistant) with
        | Raise e => Failed (Raised e)
        | Ok thread =>
          match add_message w decrypted_api_key thread content with
          | (_, Some e) => Failed (Raised e)
          | (chunks, None) =>
            Returned (join (map chunk_content
                              (List.filter
                                 (fun chunk => String.eqb (chunk_type chunk) "content_streaming")
                                 chunks)))
          end
        end
      end
    end
  end.

(** Lines 67-70, [POST /messages/summarize]. *)
Definition summarize (w : World) (d : DB) (client_id : string) : Reply string :=
  add_thread w d client_id "Summarize all the memories that you have".

End Server.

(** ** Reading the hours label *)

Module HoursSpec.
Import Py Tools ToolSpec.

(** What follows [w] at the head of [s], read without regard to case. *)
Fixpoint strip_prefix_ci (w s : string) : option string :=
  match w with
  | EmptyString => Some s
  | String a w' =>
    match s with
    | String c s' => if Re.is_char_ci a c then strip_prefix_ci w' s' else None
    | EmptyString => None
    end
  end.

(** [t] without its first character when that is an s of either case. *)
Definition skip_s (t : string) : string :=
  match t with
  | String c t' => if Re.is_char_ci "s" c then t' else t
  | EmptyString => t
  end.

(** The digits of an hours label that starts here: the word hour or
    hours in any case, one or more colons or white-space characters,
    and the longest run of digits, which is not empty. *)
Definition hours_here (s : string) : option string :=
  match strip_prefix_ci "hour" s with
  | None => None
  | Some t =>
    match run_of Re.colon_or_space (skip_s t) with
    | EmptyString => None
    | _ =>
      match run_of is_digit (rest_of Re.colon_or_space (skip_s t)) with
      | EmptyString => None
      | digits => Some digits
      end
    end
  end.

(** The digits of the leftmost hours label. *)
Fixpoint first_hours (s : string) : option string :=
  match hours_here s with
  | Some digits => Some digits
  | None =>
    match s with
    | String _ s' => first_hours s'
    | EmptyString => None
    end
  end.

(** Every character of [s] is a decimal digit. *)
Fixpoint all_digits (s : string) : bool :=
  match s with
  | String c s' => (is_digit c && all_digits s')%bool
  | EmptyString => true
  end.

(** The continuation of a sequence after a plain first part. *)
Definition after (r : Re.regex) (m1 : Re.found) : list Re.found :=
  map (fun m2 => Re.mk_found (Re.consumed m1 +:+ Re.consumed m2)
                             (Re.or_else (Re.group1 m1) (Re.group1 m2)) (Re.rest m2))
      (Re.run r (Re.rest m1)).

End HoursSpec.

(** * Properties *)

(** ** The digest *)

Example md5_empty : Md5.hexdigest "" = "d41d8cd98f00b204e9800998ecf8427e".
Proof. vm_compute. reflexivity. Qed.

Example md5_abc : Md5.hexdigest "abc" = "900150983cd24fb0d6963f7d28e17f72".
Proof. vm_compute. reflexivity. Qed.

Example md5_two_blocks :
  Md5.hexdigest "12345678901234567890123456789012345678901234567890123456789012345678901234567890"
  = "57edf4a22be3c955ac49da2e2107b67a".
Proof. vm_compute. reflexivity. Qed.

(** ** The poller *)

Module DriveFacts.
Import Py Db Drive DriveSpec.

Ltac monad_unfold :=
  unfold bind, ret, lift, emit, print, db_read, db_write, try_except, raise, stream_message.

Lemma bind_db_read {A B} (f : DB -> A) (k : A -> M B) (d : DB) :
  bind (db_read f) k d = k (f d) d.
Proof. unfold bind, db_read. destruct (k (f d) d); reflexivity. Qed.

Lemma classify_unchanged_iff doc content :
  classify (Some doc) content = Unchanged <-> content_hash doc = compute_content_hash content.
Proof.
  unfold classify.
  destruct (String.eqb_spec (content_hash doc) (compute_content_hash content));
    split; congruence.
Qed.

Lemma classify_changed_iff doc content :
  classify (Some doc) content = Changed <-> content_hash doc <> compute_content_hash content.
Proof.
  unfold classify.
  destruct (String.eqb_spec (content_hash doc) (compute_content_hash content));
    split; congruence.
Qed.

Lemma classify_new_iff existing content :
  classify existing content = New <-> existing = None.
Proof.
  split.
  - destruct existing; simpl; [|reflexivity].
    destruct (String.eqb _ _); discriminate.
  - intros ->. reflexivity.
Qed.

(** [process_fetched] branches as the classification says. *)
Lemma process_fetched_classify w fid cid metadata content d :
  process_fetched w fid cid metadata content d =
  match classify (lookup_drive_document d fid) content with
  | New =>
    (print ("Processing new document: " +:+ md_name metadata) ;;
     send_to_backboard w fid cid metadata content (compute_content_hash content) None) d
  | Changed =>
    (print ("Changes detected in " +:+ md_name metadata) ;;
     send_to_backboard w fid cid metadata content (compute_content_hash content)
                       (lookup_drive_document d fid)) d
  | Unchanged => print ("No changes detected in " +:+ md_name metadata) d
  end.
Proof.
  unfold process_fetched. rewrite bind_db_read. unfold classify.
  destruct (lookup_drive_document d fid) as [doc|] eqn:E; [|reflexivity].
  destruct (String.eqb (content_hash doc) (compute_content_hash content)); reflexivity.
Qed.

(** C1. The classification has three outcomes, decided by the stored
    record and the content alone: no record gives [New], a record with
    the hash of the content gives [Unchanged], a record with another hash
    gives [Changed]; and [process_fetched], lines 164-242, branches as
    the classification says. *)
Theorem classify_trichotomy (content : string) :
  classify None content = New
  /\ (forall doc, classify (Some doc) content = Unchanged
                  <-> content_hash doc = compute_content_hash content)
  /\ (forall doc, classify (Some doc) content = Changed
                  <-> content_hash doc <> compute_content_hash content)
  /\ (forall existing, classify existing content = New <-> existing = None)
  /\ (forall w fid cid metadata d,
        process_fetched w fid cid metadata content d =
        match classify (lookup_drive_document d fid) content with
        | New =>
          (print ("Processing new document: " +:+ md_name metadata) ;;
           send_to_backboard w fid cid metadata content (compute_content_hash content) None) d
        | Changed =>
          (print ("Changes detected in " +:+ md_name metadata) ;;
           send_to_backboard w fid cid metadata content (compute_content_hash content)
                             (lookup_drive_document d fid)) d
        | Unchanged => print ("No changes detected in " +:+ md_name metadata) d
        end).
Proof.
  split; [reflexivity|].
  split; [intros doc; apply classify_unchanged_iff|].
  split; [intros doc; apply classify_changed_iff|].
  split; [intros existing; apply classify_new_iff|].
  intros. apply process_fetched_classify.
Qed.

Lemma send_to_backboard_ok w fid cid metadata content existing_doc d key thread :
  forward_succeeds w d cid (formatted_content metadata content) key thread ->
  let o := send_to_backboard w fid cid metadata content (compute_content_hash content)
                             existing_doc d in
  result o = Ok tt
  /\ forwards (events o) = [AddMessage key thread (formatted_content metadata content)]
  /\ store_writes (events o) = [fst (upsert d fid cid metadata content existing_doc)]
  /\ final_db o = snd (upsert d fid cid metadata content existing_doc).
Proof.
  intros [client assistant Hc Hk Ha Ht Hs].
  unfold send_to_backboard. monad_unfold. simpl.
  rewrite Hc. simpl. rewrite Hk. simpl. rewrite Ha. simpl. rewrite Ht. simpl.
  rewrite Hs. simpl.
  destruct existing_doc; simpl; auto.
Qed.

Lemma send_to_backboard_bounds w fid cid metadata content hash existing_doc d :
  let o := send_to_backboard w fid cid metadata content hash existing_doc d in
  (length (forwards (events o)) <= 1)%nat
  /\ (length (store_writes (events o)) <= length (forwards (events o)))%nat
  /\ (store_writes (events o) = [] -> final_db o = d)
  /\ (forall e, result o = Raise e -> is_Exception e = false).
Proof.
  unfold send_to_backboard. monad_unfold. simpl.
  destruct (lookup_client d cid) as [client|]; simpl; [|repeat split; auto; discriminate].
  destruct (fernet_decrypt w (c_api_key client)) as [key|e]; simpl.
  2:{ destruct (is_Exception e) eqn:E; simpl; repeat split; auto; try discriminate.
      intros e' [= <-]. exact E. }
  destruct (lookup_assistant d cid) as [assistant|]; simpl; [|repeat split; auto; discriminate].
  destruct (create_thread w key (a_assistant_id assistant)) as [thread|e]; simpl.
  2:{ destruct (is_Exception e) eqn:E; simpl; repeat split; auto; try discriminate.
      intros e' [= <-]. exact E. }
  destruct (snd (add_message w key thread (formatted_content metadata content))) as [e|]; simpl.
  { destruct (is_Exception e) eqn:E; simpl; repeat split; auto; try discriminate.
    intros e' [= <-]. exact E. }
  destruct existing_doc; simpl; repeat split; auto; discriminate.
Qed.



Lemma get_file_metadata_ok w fid d metadata :
  files_get w fid = Ok metadata ->
  get_file_metadata w fid d = mk_outcome (Ok (Some metadata)) d [].
Proof. intros H. unfold get_file_metadata. monad_unfold. rewrite H. reflexivity. Qed.

Lemma get_document_content_ok w fid d content :
  export_media w fid = Ok content ->
  get_document_content w fid d = mk_outcome (Ok (Some content)) d [].
Proof. intros H. unfold get_document_content. monad_unfold. rewrite H. reflexivity. Qed.

Lemma bind_pure {A B} (m : M A) (k : A -> M B) (d : DB) (a : A) :
  m d = mk_outcome (Ok a) d [] -> bind m k d = k a d.
Proof. intros H. unfold bind. rewrite H. destruct (k a d); reflexivity. Qed.

(** With metadata and content at hand, the empty content takes the
    failure branch and any other content goes on to [process_fetched]. *)
Lemma process_document_fetched w fid cid d metadata content :
  files_get w fid = Ok metadata ->
  export_media w fid = Ok content ->
  process_document w fid cid d =
  match content with
  | EmptyString => print ("Failed to extract content from file " +:+ fid) d
  | _ => process_fetched w fid cid metadata content d
  end.
Proof.
  intros Hm Hc. unfold process_document.
  rewrite (bind_pure _ _ _ _ (get_file_metadata_ok _ _ _ _ Hm)).
  rewrite (bind_pure _ _ _ _ (get_document_content_ok _ _ _ _ Hc)).
  destruct content; reflexivity.
Qed.

Lemma bind_print_events {B} (line : string) (k : M B) (d : DB) :
  result (bind (print line) (fun _ => k) d) = result (k d)
  /\ final_db (bind (print line) (fun _ => k) d) = final_db (k d)
  /\ events (bind (print line) (fun _ => k) d) = Print line :: events (k d).
Proof. unfold bind, print, emit. destruct (k d); auto. Qed.

Lemma process_fetched_bounds w fid cid metadata content d :
  let o := process_fetched w fid cid metadata content d in
  (length (forwards (events o)) <= 1)%nat
  /\ (length (store_writes (events o)) <= length (forwards (events o)))%nat
  /\ (store_writes (events o) = [] -> final_db o = d)
  /\ (forall e, result o = Raise e -> is_Exception e = false).
Proof.
  cbv zeta. rewrite process_fetched_classify.
  destruct (classify (lookup_drive_document d fid) content).
  - destruct (bind_print_events ("Processing new document: " +:+ md_name metadata)
      (send_to_backboard w fid cid metadata content (compute_content_hash content) None) d)
      as (Hr & Hd & He).
    rewrite Hr, Hd, He. apply send_to_backboard_bounds.
  - destruct (bind_print_events ("Changes detected in " +:+ md_name metadata)
      (send_to_backboard w fid cid metadata content (compute_content_hash content)
         (lookup_drive_document d fid)) d) as (Hr & Hd & He).
    rewrite Hr, Hd, He. apply send_to_backboard_bounds.
  - simpl. repeat split; auto. discriminate.
Qed.



Lemma forwards_print line evs : forwards (Print line :: evs) = forwards evs.
Proof. reflexivity. Qed.

Lemma store_writes_print line evs : store_writes (Print line :: evs) = store_writes evs.
Proof. reflexivity. Qed.

(** A new or changed document whose forward goes through: one
    submission, then the store request. *)
Lemma process_fetched_forwarded w fid cid d metadata content key thread :
  classify (lookup_drive_document d fid) content <> Unchanged ->
  forward_succeeds w d cid (formatted_content metadata content) key thread ->
  let o := process_fetched w fid cid metadata content d in
  result o = Ok tt
  /\ forwards (events o) = [AddMessage key thread (formatted_content metadata content)]
  /\ store_writes (events o)
     = [fst (upsert d fid cid metadata content (lookup_drive_document d fid))]
  /\ final_db o = snd (upsert d fid cid metadata content (lookup_drive_document d fid)).
Proof.
  intros Hcl Hf. cbv zeta.
  rewrite process_fetched_classify.
  destruct (classify (lookup_drive_document d fid) content) eqn:E; [| |congruence].
  - apply classify_new_iff in E. rewrite E.
    destruct (bind_print_events ("Processing new document: " +:+ md_name metadata)
      (send_to_backboard w fid cid metadata content (compute_content_hash content) None) d)
      as (Hr & Hd & He).
    rewrite Hr, Hd, He.
    destruct (send_to_backboard_ok w fid cid metadata content None d key thread Hf)
      as (H0 & H1 & H2 & H3).
    rewrite forwards_print, store_writes_print, H0, H1, H2, H3. auto.
  - destruct (bind_print_events ("Changes detected in " +:+ md_name metadata)
      (send_to_backboard w fid cid metadata content (compute_content_hash content)
         (lookup_drive_document d fid)) d) as (Hr & Hd & He).
    rewrite Hr, Hd, He.
    destruct (send_to_backboard_ok w fid cid metadata content
                (lookup_drive_document d fid) d key thread Hf) as (H0 & H1 & H2 & H3).
    rewrite forwards_print, store_writes_print, H0, H1, H2, H3. auto.
Qed.





(** C9, as amended. Empty content is not treated like other content:
    a document whose fetched content is the empty string is reported as
    a failed extraction and skipped, with no forward and the database as
    it was; every other content is hashed and classified. *)
Theorem empty_content_skipped w fid cid d metadata :
  files_get w fid = Ok metadata ->
  (export_media w fid = Ok EmptyString ->
     process_document w fid cid d
     = mk_outcome (Ok tt) d [Print ("Failed to extract content from file " +:+ fid)])
  /\ (forall content,
        content <> EmptyString ->
        export_media w fid = Ok content ->
        process_document w fid cid d = process_fetched w fid cid metadata content d).
Proof.
  intros Hm. split.
  - intros Hc. rewrite (process_document_fetched _ _ _ _ _ _ Hm Hc). reflexivity.
  - intros content Hne Hc. rewrite (process_document_fetched _ _ _ _ _ _ Hm Hc).
    destruct content; congruence.
Qed.

Lemma empty_content_skipped_witness :
  process_document Fixtures.world_empty "doc-1" "ALEX" Fixtures.db_registered
  = mk_outcome (Ok tt) Fixtures.db_registered
               [Print "Failed to extract content from file doc-1"].
Proof.
  exact (proj1 (empty_content_skipped Fixtures.world_empty "doc-1" "ALEX"
                  Fixtures.db_registered Fixtures.notes eq_refl) eq_refl).
Defined.

(** The specification has the empty content forwarded like any other;
    the poller forwards nothing for it. *)
Lemma empty_content_not_forwarded :
  ~ spec_empty_content_forwarded Fixtures.world_empty "doc-1" "ALEX" Fixtures.db_registered.
Proof.
  intros H.
  specialize (H Fixtures.notes "plain-gAAAAA" "thread-1" eq_refl eq_refl).
  assert (Hcl : classify (lookup_drive_document Fixtures.db_registered "doc-1") EmptyString
                <> Unchanged) by (vm_compute; discriminate).
  assert (Hf : forward_succeeds Fixtures.world_empty Fixtures.db_registered "ALEX"
                 (formatted_content Fixtures.notes EmptyString) "plain-gAAAAA" "thread-1").
  { apply (forward_ok _ _ _ _ _ _ (mk_client "ALEX" "gAAAAA") (mk_assistant "asst-1" "ALEX"));
      reflexivity. }
  specialize (H Hcl Hf). vm_compute in H. discriminate H.
Qed.

(** A changed document whose forward goes through: the store request
    names the document, the new hash and the new content, and nothing
    else; the stored modification time stays what it was. *)
Lemma changed_update_request w fid cid d metadata content doc key thread :
  files_get w fid = Ok metadata ->
  export_media w fid = Ok content ->
  content <> EmptyString ->
  lookup_drive_document d fid = Some doc ->
  content_hash doc <> compute_content_hash content ->
  forward_succeeds w d cid (formatted_content metadata content) key thread ->
  let o := process_document w fid cid d in
  store_writes (events o) = [UpdateDriveDocument fid (compute_content_hash content) content]
  /\ lookup_drive_document (final_db o) fid
     = Some (mk_doc (file_id doc) (client_id doc) (file_name doc)
                    (compute_content_hash content) (last_modified doc) content).
Proof.
  intros Hm Hc Hne Hdoc Hh Hf. cbv zeta.
  rewrite (process_document_fetched _ _ _ _ _ _ Hm Hc).
  destruct content as [|c content]; [congruence|].
  assert (Hcl : classify (lookup_drive_document d fid) (String c content) <> Unchanged).
  { rewrite Hdoc. intros Hu.
    apply classify_unchanged_iff in Hu.
    congruence. }
  destruct (process_fetched_forwarded w fid cid d metadata (String c content) key thread Hcl Hf)
    as (_ & _ & H2 & H3).
  rewrite H2, H3, Hdoc. simpl. split; [reflexivity|].
  unfold lookup_drive_document, update_drive_document in *. simpl.
  rewrite lookup_alter_eq, Hdoc. reflexivity.
Qed.

(** C6, at a changed document. The fetched modification time is
    2024-02-02; the update request carries the hash and the content
    only, and the stored record keeps the time of 2024-01-01. On a new
    document the insert carries the fetched time. *)
Theorem update_request_drops_modified_time :
  let changed := process_document Fixtures.world_ok "doc-1" "ALEX" Fixtures.db_tracked in
  let new := process_document Fixtures.world_ok "doc-1" "ALEX" Fixtures.db_registered in
  md_modifiedTime Fixtures.notes = "2024-02-02T10:00:00.000Z"
  /\ store_writes (events changed)
     = [UpdateDriveDocument "doc-1" (compute_content_hash "hello") "hello"]
  /\ lookup_drive_document (final_db changed) "doc-1"
     = Some (mk_doc "doc-1" "ALEX" "Kickoff notes" (compute_content_hash "hello")
                    "2024-01-01T09:00:00.000Z" "hello")
  /\ store_writes (events new)
     = [CreateDriveDocument
          (mk_doc "doc-1" "ALEX" "Kickoff notes" (compute_content_hash "hello")
                  "2024-02-02T10:00:00.000Z" "hello")].
Proof.
  cbv zeta. split; [reflexivity|].
  assert (Hf : forward_succeeds Fixtures.world_ok Fixtures.db_tracked "ALEX"
                 (formatted_content Fixtures.notes "hello") "plain-gAAAAA" "thread-1").
  { apply (forward_ok _ _ _ _ _ _ (mk_client "ALEX" "gAAAAA") (mk_assistant "asst-1" "ALEX"));
      reflexivity. }
  assert (Hdoc : lookup_drive_document Fixtures.db_tracked "doc-1"
                 = Some (mk_doc "doc-1" "ALEX" "Kickoff notes" (compute_content_hash "draft")
                                "2024-01-01T09:00:00.000Z" "draft")) by reflexivity.
  assert (Hh : content_hash (mk_doc "doc-1" "ALEX" "Kickoff notes" (compute_content_hash "draft")
                                    "2024-01-01T09:00:00.000Z" "draft")
               <> compute_content_hash "hello") by (vm_compute; discriminate).
  destruct (changed_update_request Fixtures.world_ok "doc-1" "ALEX" Fixtures.db_tracked
              Fixtures.notes "hello" _ "plain-gAAAAA" "thread-1" eq_refl eq_refl
              ltac:(discriminate) Hdoc Hh Hf) as [H1 H2].
  split; [exact H1|]. split; [exact H2|].
  vm_compute. reflexivity.
Qed.

(** A step of the forward raises an exception of class [Exception]: the
    handler reports it, nothing reaches the store. *)
Lemma send_to_backboard_raises w fid cid metadata content hash existing_doc d e :
  forward_raises w d cid (formatted_content metadata content) e ->
  is_Exception e = true ->
  let o := send_to_backboard w fid cid metadata content hash existing_doc d in
  result o = Ok tt
  /\ final_db o = d
  /\ store_writes (events o) = []
  /\ last (events o) = Some (Print ("Error sending to Backboard: " +:+ exn_str e)).
Proof.
  intros Hr He. unfold send_to_backboard. monad_unfold.
  destruct Hr as [client Hc Hk | client key assistant Hc Hk Ha Ht
                 | client key assistant thread Hc Hk Ha Ht Hs].
  - rewrite Hc. simpl. rewrite Hk. simpl. rewrite He. simpl. auto.
  - rewrite Hc. simpl. rewrite Hk. simpl. rewrite Ha. simpl. rewrite Ht. simpl.
    rewrite He. simpl. auto.
  - rewrite Hc. simpl. rewrite Hk. simpl. rewrite Ha. simpl. rewrite Ht. simpl.
    rewrite Hs. simpl. rewrite He. simpl. auto.
Qed.

Lemma for_each_cons w cid fid rest d d' evs :
  process_document w fid cid d = mk_outcome (Ok tt) d' evs ->
  for_each (fid :: rest) (fun f => process_document w f cid) d
  = mk_outcome (result (for_each rest (fun f => process_document w f cid) d'))
               (final_db (for_each rest (fun f => process_document w f cid) d'))
               (evs ++ events (for_each rest (fun f => process_document w f cid) d')).
Proof.
  intros H. simpl. unfold bind. rewrite H.
  destruct (for_each rest (fun f => process_document w f cid) d'). reflexivity.
Qed.

(** C7. A document is fetched and is new or changed, and a step of its
    forward raises an exception of class [Exception]. Then processing the
    document returns normally with the database as it was and the
    failure reported, and the cycle goes on: the documents after it are
    processed from that same database, exactly as they are without it,
    and their events follow. *)
Theorem forward_failure_isolated w fid cid d metadata content e rest :
  files_get w fid = Ok metadata ->
  export_media w fid = Ok content ->
  content <> EmptyString ->
  classify (lookup_drive_document d fid) content <> Unchanged ->
  forward_raises w d cid (formatted_content metadata content) e ->
  is_Exception e = true ->
  let o := process_document w fid cid d in
  let later := for_each rest (fun f => process_document w f cid) d in
  result o = Ok tt
  /\ final_db o = d
  /\ store_writes (events o) = []
  /\ last (events o) = Some (Print ("Error sending to Backboard: " +:+ exn_str e))
  /\ for_each (fid :: rest) (fun f => process_document w f cid) d
     = mk_outcome (result later) (final_db later) (events o ++ events later).
Proof.
  intros Hm Hc Hne Hcl Hr He. cbv zeta.
  assert (Ho : result (process_document w fid cid d) = Ok tt
               /\ final_db (process_document w fid cid d) = d
               /\ store_writes (events (process_document w fid cid d)) = []
               /\ last (events (process_document w fid cid d))
                  = Some (Print ("Error sending to Backboard: " +:+ exn_str e))).
  { rewrite (process_document_fetched _ _ _ _ _ _ Hm Hc).
    destruct content as [|c content]; [congruence|].
    rewrite process_fetched_classify.
    destruct (classify (lookup_drive_document d fid) (String c content)) eqn:E;
      [| |congruence].
    - destruct (bind_print_events ("Processing new document: " +:+ md_name metadata)
        (send_to_backboard w fid cid metadata (String c content)
           (compute_content_hash (String c content)) None) d) as (H1 & H2 & H3).
      rewrite H1, H2, H3, store_writes_print.
      destruct (send_to_backboard_raises w fid cid metadata (String c content)
                  (compute_content_hash (String c content)) None d e Hr He)
        as (R1 & R2 & R3 & R4).
      rewrite R1, R2, R3. repeat split.
      rewrite last_cons, R4. reflexivity.
    - destruct (bind_print_events ("Changes detected in " +:+ md_name metadata)
        (send_to_backboard w fid cid metadata (String c content)
           (compute_content_hash (String c content)) (lookup_drive_document d fid)) d)
        as (H1 & H2 & H3).
      rewrite H1, H2, H3, store_writes_print.
      destruct (send_to_backboard_raises w fid cid metadata (String c content)
                  (compute_content_hash (String c content)) (lookup_drive_document d fid)
                  d e Hr He) as (R1 & R2 & R3 & R4).
      rewrite R1, R2, R3. repeat split.
      rewrite last_cons, R4. reflexivity. }
  destruct Ho as (O1 & O2 & O3 & O4).
  repeat split; auto.
  apply for_each_cons.
  destruct (process_document w fid cid d) as [r d' evs]. simpl in *. subst. reflexivity.
Qed.

Lemma forward_failure_isolated_witness :
  for_each ["doc-1"; "doc-2"]
           (fun f => process_document Fixtures.world_backend_down f "ALEX")
           Fixtures.db_registered
  = let o := process_document Fixtures.world_backend_down "doc-1" "ALEX"
                              Fixtures.db_registered in
    let later := for_each ["doc-2"]
                   (fun f => process_document Fixtures.world_backend_down f "ALEX")
                   Fixtures.db_registered in
    mk_outcome (result later) (final_db later) (events o ++ events later).
Proof.
  refine (proj2 (proj2 (proj2 (proj2
    (forward_failure_isolated Fixtures.world_backend_down "doc-1" "ALEX"
       Fixtures.db_registered Fixtures.notes "hello"
       (mk_exn RuntimeError "backend unavailable") ["doc-2"]
       eq_refl eq_refl _ _ _ eq_refl))))).
  - discriminate.
  - vm_compute. discriminate.
  - apply (raises_in_create_thread _ _ _ _ _ (mk_client "ALEX" "gAAAAA") "plain-gAAAAA"
             (mk_assistant "asst-1" "ALEX")); reflexivity.
Defined.

End DriveFacts.

(** ** The invocation parser *)

Module ParserFacts.
Import Py Tools ToolSpec.

Lemma app_cons c (a b : string) : String c a +:+ b = String c (a +:+ b).
Proof. reflexivity. Qed.

Lemma app_empty (b : string) : EmptyString +:+ b = b.
Proof. reflexivity. Qed.

Lemma run_rest_of p s : run_of p s +:+ rest_of p s = s.
Proof.
  induction s as [|c s IH]; simpl; [reflexivity|].
  destruct (p c); [rewrite app_cons, IH|]; reflexivity.
Qed.

Lemma run_of_empty_rest p s : run_of p s = EmptyString -> rest_of p s = s.
Proof. intros H. pose proof (run_rest_of p s) as H'. rewrite H in H'. exact H'. Qed.

(** Greedy repetition tries the longest run first, and fails exactly
    when the run is empty. *)
Lemma plus_greedy_head p s :
  match Re.plus_greedy p s with
  | [] => run_of p s = EmptyString
  | m :: _ => m = (run_of p s, rest_of p s) /\ run_of p s <> EmptyString
  end.
Proof.
  induction s as [|c s IH]; simpl; [reflexivity|].
  destruct (p c) eqn:E; [|reflexivity].
  destruct (Re.plus_greedy p s) as [|m tl]; simpl.
  - rewrite IH, (run_of_empty_rest _ _ IH). split; [reflexivity|discriminate].
  - destruct IH as [-> _]. split; [reflexivity|discriminate].
Qed.



Lemma outline_app l1 l2 :
  outline (l1 ++ l2) = match outline l1 with Some g => Some g | None => outline l2 end.
Proof. destruct l1; reflexivity. Qed.

Lemma outline_map (f : Re.found -> Re.found) l :
  (forall m, Re.group1 (f m) = Re.group1 m) ->
  outline (map f l) = outline l.
Proof. intros H. destruct l; simpl; [reflexivity|]. rewrite H. reflexivity. Qed.

Lemma or_else_none g : Re.or_else None g = g.
Proof. destruct g; reflexivity. Qed.

(** The identifier and the optional closing quote: the group is the
    longest run of word characters, and there is a match exactly when
    that run is not empty. *)
Lemma run_ident_tail t :
  outline (Re.run ident_tail t)
  = match run_of is_word t with
    | EmptyString => None
    | w => Some (Some w)
    end.
Proof.
  unfold ident_tail. simpl.
  pose proof (plus_greedy_head is_word t) as H.
  destruct (Re.plus_greedy is_word t) as [|m tl]; simpl.
  - rewrite H. reflexivity.
  - destruct H as [-> Hne]. simpl.
    destruct (run_of is_word t) eqn:E; [congruence|].
    destruct (rest_of is_word t) as [|c r]; simpl; [reflexivity|].
    destruct (is_quote c); reflexivity.
Qed.

Lemma quote_not_word c : is_quote c = true -> is_word c = false.
Proof.
  unfold is_quote, is_word, is_digit, is_upper, is_lower, between.
  intros H. apply orb_true_iff in H.
  destruct H as [H|H]; apply Nat.eqb_eq in H; rewrite H; reflexivity.
Qed.

(** A class first: the rest is tried after the character, if the
    character is of the class. *)
Lemma outline_chr_seq p r s :
  outline (Re.run (Re.Seq (Re.Chr p) r) s)
  = match s with
    | String c t => if p c then outline (Re.run r t) else None
    | EmptyString => None
    end.
Proof.
  destruct s as [|c t]; simpl; [reflexivity|].
  destruct (p c); simpl; [|reflexivity].
  rewrite outline_app, outline_map by (intros; apply or_else_none).
  destruct (outline (Re.run r t)); reflexivity.
Qed.

(** An optional class first: with the character, and failing that,
    without it. *)
Lemma outline_opt_seq q r s :
  outline (Re.run (Re.Seq (Re.Opt q) r) s)
  = match s with
    | String c t =>
      if q c
      then match outline (Re.run r t) with
           | Some g => Some g
           | None => outline (Re.run r s)
           end
      else outline (Re.run r s)
    | EmptyString => outline (Re.run r s)
    end.
Proof.
  destruct s as [|c t]; simpl.
  - rewrite outline_app, outline_map by (intros; apply or_else_none).
    destruct (outline (Re.run r EmptyString)); reflexivity.
  - destruct (q c); simpl.
    + rewrite !outline_app, !outline_map by (intros; apply or_else_none).
      destruct (outline (Re.run r t)); [reflexivity|].
      destruct (outline (Re.run r (String c t))); reflexivity.
    + rewrite outline_app, outline_map by (intros; apply or_else_none).
      destruct (outline (Re.run r (String c t))); reflexivity.
Qed.

(** At one position, the pattern of the detector finds what
    [marker_here] describes. When the quote is there and no identifier
    follows it, the matcher goes back and tries without the quote, which
    cannot succeed either. *)
Lemma run_tool_pattern s :
  outline (Re.run tool_pattern s)
  = match marker_here s with
    | Some w => Some (Some w)
    | None => None
    end.
Proof.
  change tool_pattern
    with (Re.Seq (Re.Chr (Re.is_char "@")) (Re.Seq (Re.Opt is_quote) ident_tail)).
  rewrite outline_chr_seq. unfold marker_here.
  destruct s as [|a t]; [reflexivity|].
  unfold Re.is_char. rewrite Ascii.eqb_sym.
  destruct (Ascii.eqb a "@"); [|reflexivity].
  rewrite outline_opt_seq. unfold skip_quote.
  destruct t as [|c t].
  - rewrite run_ident_tail. reflexivity.
  - destruct (is_quote c) eqn:Q.
    + rewrite (run_ident_tail t), (run_ident_tail (String c t)).
      simpl run_of. rewrite (quote_not_word c Q).
      destruct (run_of is_word t); reflexivity.
    + rewrite (run_ident_tail (String c t)).
      destruct (run_of is_word (String c t)); reflexivity.
Qed.

Lemma search_cons r c s :
  Re.search r (String c s)
  = match Re.run r (String c s) with
    | m :: _ => Some m
    | [] => Re.search r s
    end.
Proof. reflexivity. Qed.

Lemma first_marker_cons c s :
  first_marker (String c s)
  = match marker_here (String c s) with
    | Some w => Some w
    | None => first_marker s
    end.
Proof. reflexivity. Qed.

(** The detector is the scanner [first_marker]. *)
Lemma detect_first_marker (text : string) :
  detect_tool_invocation text = first_marker text.
Proof.
  unfold detect_tool_invocation.
  induction text as [|c text IH].
  - reflexivity.
  - pose proof (run_tool_pattern (String c text)) as H.
    rewrite search_cons, first_marker_cons.
    destruct (Re.run tool_pattern (String c text)) as [|m tl];
      unfold outline in H;
      destruct (marker_here (String c text)); try discriminate.
    + exact IH.
    + congruence.
Qed.





Lemma run_of_all_word w tail :
  all_word w = true -> no_word_ahead tail = true ->
  run_of is_word (w +:+ tail) = w /\ rest_of is_word (w +:+ tail) = tail.
Proof.
  intros Hw Ht. induction w as [|c w IH].
  - rewrite app_empty. destruct tail as [|c tail]; [split; reflexivity|].
    simpl in Ht. apply negb_true_iff in Ht. simpl. rewrite Ht. split; reflexivity.
  - simpl in Hw. apply andb_true_iff in Hw. destruct Hw as [Hc Hw].
    rewrite app_cons. simpl. rewrite Hc. destruct (IH Hw) as [-> ->]. split; reflexivity.
Qed.

Lemma word_not_at c : is_word c = true -> Ascii.eqb c "@" = false.
Proof.
  intros H. destruct (Ascii.eqb_spec c "@") as [->|]; [|reflexivity].
  vm_compute in H. discriminate.
Qed.

Lemma quote_not_at c : is_quote c = true -> Ascii.eqb c "@" = false.
Proof.
  intros H. destruct (Ascii.eqb_spec c "@") as [->|]; [|reflexivity].
  vm_compute in H. discriminate.
Qed.

Lemma all_word_no_at w : all_word w = true -> no_at w = true.
Proof.
  induction w as [|c w IH]; simpl; [reflexivity|].
  intros H. apply andb_true_iff in H. destruct H as [Hc Hw].
  rewrite (word_not_at c Hc), (IH Hw). reflexivity.
Qed.

Lemma no_at_app u v : no_at u = true -> no_at v = true -> no_at (u +:+ v) = true.
Proof.
  intros Hu Hv. induction u as [|c u IH]; [exact Hv|].
  simpl in Hu. apply andb_true_iff in Hu. destruct Hu as [Hc Hu].
  rewrite app_cons. simpl. rewrite Hc, (IH Hu). reflexivity.
Qed.

(** Before the first at sign there is no marker. *)
Lemma first_marker_skip u s : no_at u = true -> first_marker (u +:+ s) = first_marker s.
Proof.
  intros Hu. induction u as [|c u IH]; [reflexivity|].
  simpl in Hu. apply andb_true_iff in Hu. destruct Hu as [Hc Hu].
  apply negb_true_iff in Hc.
  rewrite app_cons, first_marker_cons. unfold marker_here. rewrite Hc. exact (IH Hu).
Qed.

Lemma spec_detect_cons c s :
  spec_detect (String c s)
  = match spec_marker_here (String c s) with
    | Some w => Some w
    | None => spec_detect s
    end.
Proof. reflexivity. Qed.

Lemma spec_detect_no_at s : no_at s = true -> spec_detect s = None.
Proof.
  induction s as [|c s IH]; [reflexivity|].
  simpl no_at. intros H. apply andb_true_iff in H. destruct H as [Hc Hs].
  apply negb_true_iff in Hc.
  rewrite spec_detect_cons. unfold spec_marker_here. rewrite Hc. exact (IH Hs).
Qed.

(** A marker of the grammar of the specification is a marker for the
    detector, with the same identifier. *)
Lemma spec_marker_is_marker s w : spec_marker_here s = Some w -> marker_here s = Some w.
Proof.
  unfold spec_marker_here, marker_here. destruct s as [|a t]; [discriminate|].
  destruct (Ascii.eqb a "@"); [|discriminate].
  destruct t as [|q t]; [discriminate|].
  unfold skip_quote. destruct (is_quote q) eqn:Q.
  - destruct (run_of is_word t) as [|c r]; [discriminate|].
    destruct (rest_of is_word t) as [|q' r']; [discriminate|].
    destruct (Ascii.eqb q q'); [|discriminate]. intros H. exact H.
  - destruct (run_of is_word (String q t)); [discriminate|]. intros H. exact H.
Qed.

Lemma spec_detect_accepted text :
  spec_detect text <> None -> first_marker text <> None.
Proof.
  induction text as [|c text IH]; [intros H; exact H|].
  rewrite spec_detect_cons, first_marker_cons.
  destruct (spec_marker_here (String c text)) as [w|] eqn:E.
  - rewrite (spec_marker_is_marker _ _ E). intros _. discriminate.
  - intros H. destruct (marker_here (String c text)); [discriminate|]. exact (IH H).
Qed.



Lemma run_of_word w :
  all_word w = true -> run_of is_word w = w /\ rest_of is_word w = EmptyString.
Proof.
  induction w as [|c w IH]; [split; reflexivity|].
  simpl. intros H. apply andb_true_iff in H. destruct H as [Hc Hw].
  rewrite Hc. destruct (IH Hw) as [-> ->]. split; reflexivity.
Qed.

Lemma word_not_quote c : is_word c = true -> is_quote c = false.
Proof.
  intros H. destruct (is_quote c) eqn:Q; [|reflexivity].
  rewrite (quote_not_word c Q) in H. discriminate.
Qed.



End ParserFacts.

(** ** The router *)

Module RouterFacts.
Import Py Datetime Tools ToolSpec RouterSpec ToolFixtures.

Lemma plus_lazy_nonempty p s :
  Forall (fun m : string * string => fst m <> EmptyString) (Re.plus_lazy p s).
Proof.
  induction s as [|c s IH]; simpl; [constructor|].
  destruct (p c); [|constructor].
  constructor; [discriminate|].
  apply Forall_forall. intros m Hm. apply list_elem_of_fmap in Hm.
  destruct Hm as (m' & -> & _). discriminate.
Qed.

Lemma group_lazy_filled p s :
  Forall (fun m => group_filled m = true) (Re.run (Re.Group (Re.PlusLazy p)) s).
Proof.
  simpl. apply Forall_forall. intros m Hm.
  apply list_elem_of_fmap in Hm. destruct Hm as (m1 & -> & Hm1).
  apply list_elem_of_fmap in Hm1. destruct Hm1 as (m2 & -> & Hm2).
  pose proof (plus_lazy_nonempty p s) as H.
  rewrite Forall_forall in H. specialize (H m2 Hm2).
  unfold group_filled. simpl. destruct (fst m2); congruence.
Qed.

(** A class after the group leaves the group as it is. *)
Lemma seq_chr_filled r p :
  (forall s, Forall (fun m => group_filled m = true) (Re.run r s)) ->
  forall s, Forall (fun m => group_filled m = true) (Re.run (Re.Seq r (Re.Chr p)) s).
Proof.
  intros H s. simpl. apply Forall_forall. intros m Hm.
  apply list_elem_of_In, in_flat_map in Hm. destruct Hm as (m1 & Hm1 & Hm).
  apply list_elem_of_In, list_elem_of_fmap in Hm. destruct Hm as (m2 & -> & Hm2).
  specialize (H s). rewrite Forall_forall in H.
  apply list_elem_of_In in Hm1. specialize (H m1 Hm1).
  assert (Hg : Re.group1 m2 = None).
  { destruct (Re.rest m1) as [|c t]; simpl in Hm2; [inversion Hm2|].
    destruct (p c); [|inversion Hm2].
    apply list_elem_of_singleton in Hm2. subst m2. reflexivity. }
  unfold group_filled in *. simpl. rewrite Hg. exact H.
Qed.

(** Whatever comes before, the group of the later part is the group of
    the whole. *)
Lemma seq_filled r1 r2 :
  (forall s, Forall (fun m => group_filled m = true) (Re.run r2 s)) ->
  forall s, Forall (fun m => group_filled m = true) (Re.run (Re.Seq r1 r2) s).
Proof.
  intros H s. simpl. apply Forall_forall. intros m Hm.
  apply list_elem_of_In, in_flat_map in Hm. destruct Hm as (m1 & Hm1 & Hm).
  apply list_elem_of_In, list_elem_of_fmap in Hm. destruct Hm as (m2 & -> & Hm2).
  specialize (H (Re.rest m1)). rewrite Forall_forall in H. specialize (H m2 Hm2).
  unfold group_filled in *. simpl.
  destruct (Re.group1 m2) as [g|]; [|discriminate]. exact H.
Qed.

Lemma lit_ci_filled w k :
  (forall s, Forall (fun m => group_filled m = true) (Re.run k s)) ->
  forall s, Forall (fun m => group_filled m = true) (Re.run (Re.lit_ci w k) s).
Proof.
  intros H. induction w as [|a w IH]; [exact H|].
  simpl Re.lit_ci. apply seq_filled. exact IH.
Qed.

Lemma search_filled r s m :
  (forall s, Forall (fun m => group_filled m = true) (Re.run r s)) ->
  Re.search r s = Some m -> group_filled m = true.
Proof.
  intros H. induction s as [|c s IH].
  - simpl. specialize (H EmptyString). destruct (Re.run r EmptyString); [discriminate|].
    intros [= <-]. inversion H. assumption.
  - rewrite ParserFacts.search_cons. specialize (H (String c s)).
    destruct (Re.run r (String c s)); [exact IH|].
    intros [= <-]. inversion H. assumption.
Qed.

(** The content group is never empty: the lazy repetition takes at
    least one character. *)
Lemma content_group_filled text m :
  Re.search content_pattern text = Some m -> group m <> EmptyString.
Proof.
  intros H. apply search_filled in H.
  - unfold group_filled in H. unfold group.
    destruct (Re.group1 m) as [[|c g]|]; simpl; congruence.
  - unfold content_pattern. apply lit_ci_filled.
    apply seq_filled, seq_filled, seq_chr_filled. apply group_lazy_filled.
Qed.



Section CreateFile.

Variable fromisoformat : string -> option datetime.
Variable now : Z.
Variables client_id assistant_id : string.
Variable backboard_client : BackboardClient.


End CreateFile.

(** The example of the specification: a quoted file name and a quoted
    content. *)
Example create_file_ready :
  let text := "@" +:+ str1 dq +:+ "create_file" +:+ str1 dq +:+ " filename: "
              +:+ str1 dq +:+ "docs/a.md" +:+ str1 dq +:+ " content: "
              +:+ str1 dq +:+ "hello" +:+ str1 dq in
  detect_tool_invocation text = Some "create_file"
  /\ option_map group (Re.search filename_pattern text) = Some "docs/a.md"
  /\ option_map group (Re.search content_pattern text) = Some "hello".
Proof. vm_compute. repeat split. Qed.



(** *** The error contract of the router *)

Lemma error_result_status (tool : string) (e : exn) :
  status_of (error_result tool e) = Some "error".
Proof. reflexivity. Qed.

Lemma catch_Exception_structured (tool : string) (body : Res ToolResult) :
  (forall e, body = Raise e -> is_Exception e = true) ->
  (forall r, body = Ok r -> structured (Ok r) = true) ->
  structured (catch_Exception tool body) = true.
Proof.
  intros Hraise Hok. destruct body as [r|e]; simpl.
  - apply (Hok r). reflexivity.
  - rewrite (Hraise e) by reflexivity. reflexivity.
Qed.

Lemma catch_Exception_raise (tool : string) (body : Res ToolResult) (e : exn) :
  body = Raise e -> is_Exception e = true ->
  catch_Exception tool body = Ok (error_result tool e).
Proof. intros -> He. simpl. rewrite He. reflexivity. Qed.

Lemma timedelta_hours_raises (h : Z) (e : exn) :
  timedelta_hours h = Raise e -> is_Exception e = true.
Proof.
  unfold timedelta_hours. intros H.
  destruct (_ || _)%bool; [injection H as <-; reflexivity|].
  destruct (_ <? _); [injection H as <-; reflexivity|discriminate].
Qed.

Lemma datetime_sub_raises (t delta : Z) (e : exn) :
  datetime_sub t delta = Raise e -> is_Exception e = true.
Proof.
  unfold datetime_sub. intros H.
  destruct (_ || _)%bool; [injection H as <-; reflexivity|discriminate].
Qed.

Lemma query_memories_raises (backboard_client : BackboardClient) (assistant_id : string) (e : exn) :
  query_memories backboard_client assistant_id = Raise e ->
  get_memories backboard_client assistant_id = Raise e /\ is_AttributeError e = false.
Proof.
  unfold query_memories. destruct (get_memories _ _) as [l|e'] eqn:E; [discriminate|].
  destruct (is_AttributeError e') eqn:A; [discriminate|].
  intros H. injection H as <-. split; [reflexivity|exact A].
Qed.

Lemma query_memories_reraises (backboard_client : BackboardClient) (assistant_id : string) (e : exn) :
  get_memories backboard_client assistant_id = Raise e -> is_AttributeError e = false ->
  query_memories backboard_client assistant_id = Raise e.
Proof. unfold query_memories. intros -> ->. reflexivity. Qed.

Lemma query_memories_fallback (backboard_client : BackboardClient) (assistant_id : string) (e : exn) :
  get_memories backboard_client assistant_id = Raise e -> is_AttributeError e = true ->
  query_memories backboard_client assistant_id = Ok [].
Proof. unfold query_memories. intros -> ->. reflexivity. Qed.

Section Contract.

Variable fromisoformat : string -> option datetime.
Variable now : Z.
Variables client_id assistant_id : string.
Variable backboard_client : BackboardClient.

Hypothesis query_raises_Exception :
  forall e, get_memories backboard_client assistant_id = Raise e -> is_Exception e = true.

Lemma recent_context_structured (hours : Z) :
  structured (handle_get_recent_context fromisoformat now client_id hours
                backboard_client assistant_id) = true.
Proof.
  unfold handle_get_recent_context. apply catch_Exception_structured.
  - intros e H.
    destruct (query_memories backboard_client assistant_id) as [l|e1] eqn:Q; simpl in H.
    + destruct (timedelta_hours hours) as [d|e2] eqn:T; simpl in H.
      * destruct (datetime_sub now d) as [c|e3] eqn:S; simpl in H; [discriminate|].
        injection H as <-. exact (datetime_sub_raises _ _ _ S).
      * injection H as <-. exact (timedelta_hours_raises _ _ T).
    + injection H as <-. apply query_raises_Exception.
      exact (proj1 (query_memories_raises _ _ _ Q)).
  - intros r H.
    destruct (query_memories backboard_client assistant_id) as [l|e1]; simpl in H; [|discriminate].
    destruct (timedelta_hours hours) as [d|e2]; simpl in H; [|discriminate].
    destruct (datetime_sub now d) as [c|e3]; simpl in H; [|discriminate].
    injection H as <-. reflexivity.
Qed.

Lemma mermaid_structured (topic : string) :
  structured (handle_generate_mermaid_graph client_id topic backboard_client assistant_id) = true.
Proof.
  unfold handle_generate_mermaid_graph. apply catch_Exception_structured.
  - intros e H.
    destruct (query_memories backboard_client assistant_id) as [l|e1] eqn:Q; simpl in H;
      [discriminate|].
    injection H as <-. apply query_raises_Exception.
    exact (proj1 (query_memories_raises _ _ _ Q)).
  - intros r H.
    destruct (query_memories backboard_client assistant_id) as [l|e1]; simpl in H; [|discriminate].
    injection H as <-. reflexivity.
Qed.

Lemma int_of_digits_within (s : string) :
  (String.length s <= int_max_str_digits)%nat -> int_of_digits s = Ok (digits_value s 0).
Proof.
  intros H. unfold int_of_digits.
  destruct (Nat.ltb_spec int_max_str_digits (String.length s)); [lia|reflexivity].
Qed.

Lemma execute_tool_structured (tool_name text : string) :
  (forall m, Re.search hours_pattern text = Some m ->
             (String.length (group m) <= int_max_str_digits)%nat) ->
  structured (execute_tool fromisoformat now tool_name client_id text
                backboard_client assistant_id) = true.
Proof.
  intros Hdigits. unfold execute_tool.
  destruct (String.eqb tool_name "create_file").
  { destruct (Re.search content_pattern text) as [m|]; [|reflexivity].
    destruct (group m); reflexivity. }
  destruct (String.eqb tool_name "get_recent_context").
  { destruct (Re.search hours_pattern text) as [m|]; simpl.
    - rewrite (int_of_digits_within _ (Hdigits m eq_refl)). simpl.
      apply recent_context_structured.
    - apply recent_context_structured. }
  destruct (String.eqb tool_name "generate_mermaid_graph").
  { apply mermaid_structured. }
  reflexivity.
Qed.

Lemma execute_tool_unknown (tool_name text : string) :
  tool_name <> "create_file" -> tool_name <> "get_recent_context" ->
  tool_name <> "generate_mermaid_graph" ->
  execute_tool fromisoformat now tool_name client_id text backboard_client assistant_id
  = Ok {[ "tool" := VStr tool_name;
          "status" := VStr "error";
          "error" := VStr ("Unknown tool: " +:+ tool_name) ]}.
Proof.
  intros N1 N2 N3. unfold execute_tool.
  apply String.eqb_neq in N1, N2, N3. rewrite N1, N2, N3. reflexivity.
Qed.

Lemma execute_tool_query_failure (tool_name text : string) (e : exn) :
  (forall m, Re.search hours_pattern text = Some m ->
             (String.length (group m) <= int_max_str_digits)%nat) ->
  tool_name = "get_recent_context" \/ tool_name = "generate_mermaid_graph" ->
  get_memories backboard_client assistant_id = Raise e ->
  is_AttributeError e = false ->
  execute_tool fromisoformat now tool_name client_id text backboard_client assistant_id
  = Ok (error_result tool_name e).
Proof.
  intros Hdigits Htool Hq Hattr.
  pose proof (query_raises_Exception e Hq) as He.
  pose proof (query_memories_reraises _ _ _ Hq Hattr) as Q.
  unfold execute_tool. destruct Htool as [-> | ->].
  - change (String.eqb "get_recent_context" "create_file") with false.
    change (String.eqb "get_recent_context" "get_recent_context") with true. cbv iota.
    assert (forall hours,
      handle_get_recent_context fromisoformat now client_id hours backboard_client assistant_id
      = Ok (error_result "get_recent_context" e)) as Hh.
    { intros hours. unfold handle_get_recent_context.
      apply catch_Exception_raise; [|exact He]. rewrite Q. reflexivity. }
    destruct (Re.search hours_pattern text) as [m|]; simpl.
    + rewrite (int_of_digits_within _ (Hdigits m eq_refl)). simpl. apply Hh.
    + apply Hh.
  - change (String.eqb "generate_mermaid_graph" "create_file") with false.
    change (String.eqb "generate_mermaid_graph" "get_recent_context") with false.
    change (String.eqb "generate_mermaid_graph" "generate_mermaid_graph") with true. cbv iota.
    unfold handle_generate_mermaid_graph.
    apply catch_Exception_raise; [|exact He]. rewrite Q. reflexivity.
Qed.

Lemma execute_tool_query_fallback (tool_name text : string) (e : exn) :
  get_memories backboard_client assistant_id = Raise e ->
  is_AttributeError e = true ->
  execute_tool fromisoformat now tool_name client_id text backboard_client assistant_id
  = execute_tool fromisoformat now tool_name client_id text
      (mk_backboard (fun _ => Ok [])) assistant_id.
Proof.
  intros Hq Hattr.
  pose proof (query_memories_fallback _ _ _ Hq Hattr) as Q.
  unfold execute_tool, handle_get_recent_context, handle_generate_mermaid_graph.
  rewrite Q. reflexivity.
Qed.

End Contract.

(** An [hours] figure of more digits than [int] converts is refused
    before the handler and its [try] are reached: the call raises. *)
Lemma hours_over_limit_propagates (fromisoformat : string -> option datetime) (now : Z)
    (client_id text : string) (backboard_client : BackboardClient) (assistant_id : string)
    (m : Re.found) :
  Re.search hours_pattern text = Some m ->
  (int_max_str_digits < String.length (group m))%nat ->
  exists e,
    execute_tool fromisoformat now "get_recent_context" client_id text
                 backboard_client assistant_id = Raise e
    /\ exn_cls e = ValueError.
Proof.
  intros Hm Hlen. unfold execute_tool.
  change (String.eqb "get_recent_context" "create_file") with false.
  change (String.eqb "get_recent_context" "get_recent_context") with true. cbv iota.
  rewrite Hm. unfold int_of_digits.
  destruct (Nat.ltb_spec int_max_str_digits (String.length (group m))); [|lia].
  eexists. split; reflexivity.
Qed.




Example missing_query_reports_success :
  returned_status (execute_tool Iso.fromisoformat noon "get_recent_context" "ALEX"
                     "@get_recent_context" board_without_query "asst-1")
  = Some "success".
Proof. vm_compute. reflexivity. Qed.

(** *** The buckets of the recent context *)

Section Buckets.

Variable fromisoformat : string -> option datetime.

Lemma group_memory_bucket (cutoff_time : Z) (c : RecentContext) (memory : Memory) (b : Bucket) :
  bucket (group_memory fromisoformat cutoff_time c memory) b
  = (bucket c b
     ++ if (in_code_window fromisoformat cutoff_time memory && bucket_is b memory)%bool
        then [entry_of memory] else [])%list.
Proof.
  unfold group_memory, in_code_window, ingested, bucket_is, bucket_of, entry_of.
  destruct (ingested_at_of memory) as [[|a s]|]; simpl;
    try (rewrite app_nil_r; reflexivity).
  destruct (fromisoformat _) as [t|]; simpl; [|rewrite app_nil_r; reflexivity].
  destruct (cutoff_time <=? replace_tzinfo_none t); simpl;
    [|rewrite app_nil_r; reflexivity].
  destruct (String.eqb (lower (source_of memory)) "telegram");
    [destruct b; simpl; rewrite ?app_nil_r; reflexivity|].
  destruct (String.eqb (lower (source_of memory)) "drive");
    [destruct b; simpl; rewrite ?app_nil_r; reflexivity|].
  destruct (String.eqb (lower (source_of memory)) "github" ||
            String.eqb (lower (source_of memory)) "git")%bool;
    destruct b; simpl; rewrite ?app_nil_r; reflexivity.
Qed.

Lemma fold_group_memory_bucket (cutoff_time : Z) (memories : list Memory) (c : RecentContext)
    (b : Bucket) :
  bucket (fold_left (group_memory fromisoformat cutoff_time) memories c) b
  = (bucket c b ++ selected (in_code_window fromisoformat cutoff_time) b memories)%list.
Proof.
  revert c. induction memories as [|memory memories IH]; intros c.
  - unfold selected. simpl. rewrite app_nil_r. reflexivity.
  - simpl fold_left. rewrite IH, group_memory_bucket. rewrite <- app_assoc. f_equal.
    unfold selected. simpl List.filter.
    destruct (in_code_window fromisoformat cutoff_time memory && bucket_is b memory)%bool;
      reflexivity.
Qed.

Lemma timedelta_hours_value (hours delta : Z) :
  timedelta_hours hours = Ok delta -> delta = hours * 3600000000.
Proof.
  unfold timedelta_hours. destruct (_ || _)%bool; [discriminate|].
  destruct (_ <? _); [discriminate|]. intros H. injection H as <-. reflexivity.
Qed.

Lemma datetime_sub_value (t delta r : Z) :
  datetime_sub t delta = Ok r -> r = t - delta.
Proof.
  unfold datetime_sub. destruct (_ || _)%bool; [discriminate|].
  intros H. injection H as <-. reflexivity.
Qed.

Lemma recent_context_result (now : Z) (client_id : string) (hours : Z)
    (backboard_client : BackboardClient) (assistant_id : string)
    (memories : list Memory) (delta cutoff_time : Z) :
  get_memories backboard_client assistant_id = Ok memories ->
  timedelta_hours hours = Ok delta ->
  datetime_sub now delta = Ok cutoff_time ->
  handle_get_recent_context fromisoformat now client_id hours backboard_client assistant_id
  = Ok (let recent_context :=
          fold_left (group_memory fromisoformat cutoff_time) memories (mk_context [] [] []) in
        {[ "tool" := VStr "get_recent_context";
           "status" := VStr "success";
           "hours" := VInt hours;
           "context" := VContext recent_context;
           "formatted" := VStr (format_recent_context recent_context hours) ]}).
Proof.
  intros Hq Ht Hs. unfold handle_get_recent_context, query_memories.
  rewrite Hq. simpl. rewrite Ht. simpl. rewrite Hs. reflexivity.
Qed.


End Buckets.


(** The example of the specification: with 24 hours, the drive entry of
    an hour ago is in the drive bucket and the telegram entry of thirty
    hours ago is in none; nor are the entry whose timestamp does not
    parse and the entry of an unknown source, and the call succeeds. *)
Example recent_context_example :
  context_of (handle_get_recent_context Iso.fromisoformat noon "ALEX" 24
                (board_of [drive_recent; telegram_old; drive_unreadable; slack_recent])
                "asst-1")
  = Some (mk_context [] [entry_of drive_recent] []).
Proof. vm_compute. reflexivity. Qed.


(** A memory stamped at the cutoff is kept as well. *)
Example entry_at_cutoff_kept :
  context_of (handle_get_recent_context Iso.fromisoformat noon "ALEX" 24
                (board_of [github_at_cutoff; drive_ahead]) "asst-1")
  = Some (mk_context [] [entry_of drive_ahead] [entry_of github_at_cutoff])
  /\ in_spec_window Iso.fromisoformat noon 24 github_at_cutoff = false
  /\ in_spec_window Iso.fromisoformat noon 24 drive_ahead = false.
Proof. vm_compute. repeat split. Qed.

End RouterFacts.

(** * Further properties *)

(** ** The content hash and the URL helper *)

Module SetupFacts.
Import Py Db Drive DriveSetup.

Lemma hex_length (bs : list Z) : String.length (Md5.hex bs) = (2 * length bs)%nat.
Proof. induction bs as [|b bs IH]; simpl; [reflexivity|]. rewrite IH. lia. Qed.

Lemma le_bytes_length (n : nat) (x : Z) : length (Md5.le_bytes n x) = n.
Proof. revert x. induction n as [|n IH]; intros x; simpl; [reflexivity|]. rewrite IH. reflexivity. Qed.

Lemma le_bytes_range (n : nat) (x : Z) :
  Forall (fun b => 0 <= b < 256) (Md5.le_bytes n x).
Proof.
  revert x. induction n as [|n IH]; intros x; simpl; constructor; [|apply IH].
  change 255 with (Z.ones 8). rewrite Z.land_ones by lia.
  apply Z.mod_pos_bound. reflexivity.
Qed.

Lemma digest_length (msg : list Z) : length (Md5.digest msg) = 16%nat.
Proof.
  unfold Md5.digest. destruct (Md5.blocks _ _ _) as [[[a b] c] d].
  rewrite !length_app, !le_bytes_length. reflexivity.
Qed.

Lemma digest_range (msg : list Z) : Forall (fun b => 0 <= b < 256) (Md5.digest msg).
Proof.
  unfold Md5.digest. destruct (Md5.blocks _ _ _) as [[[a b] c] d].
  repeat (apply Forall_app; split); apply le_bytes_range.
Qed.

Lemma hex_digit_hex (n : Z) :
  0 <= n < 16 ->
  (between 48 57 (Md5.hex_digit n) || between 97 102 (Md5.hex_digit n))%bool = true.
Proof.
  intros H. rewrite <- (Z2Nat.id n) by lia.
  assert (Z.to_nat n < 16)%nat as Hk by lia.
  revert Hk. generalize (Z.to_nat n). intros k Hk.
  do 16 (destruct k as [|k]; [reflexivity|]). lia.
Qed.

Lemma hex_all_hex (bs : list Z) :
  Forall (fun b => 0 <= b < 256) bs -> all_hex (Md5.hex bs) = true.
Proof.
  induction 1 as [|b bs Hb _ IH]; simpl; [reflexivity|].
  rewrite IH, !andb_true_r.
  rewrite !hex_digit_hex; [reflexivity| |].
  - change 15 with (Z.ones 4). rewrite Z.land_ones by lia. apply Z.mod_pos_bound. reflexivity.
  - rewrite Z.shiftr_div_pow2 by lia. change (2 ^ 4) with 16.
    split; [apply Z.div_pos; lia|apply Z.div_lt_upper_bound; lia].
Qed.

Lemma hash_length (content : string) : String.length (compute_content_hash content) = 32%nat.
Proof. unfold compute_content_hash, Md5.hexdigest. rewrite hex_length, digest_length. reflexivity. Qed.

Lemma hash_nonempty (content : string) : compute_content_hash content <> EmptyString.
Proof. intros E. pose proof (hash_length content) as L. rewrite E in L. discriminate L. Qed.

(** The hash of any content is 32 lower-case hexadecimal digits; it is
    never the empty hash a registration stores. *)
Theorem compute_content_hash_shape (content : string) :
  String.length (compute_content_hash content) = 32%nat
  /\ all_hex (compute_content_hash content) = true
  /\ compute_content_hash content <> EmptyString.
Proof.
  split; [apply hash_length|]. split; [|apply hash_nonempty].
  unfold compute_content_hash, Md5.hexdigest. apply hex_all_hex, digest_range.
Qed.

(** *** Strings *)

Lemma str_app_cons (c : ascii) (s t : string) : String c s +:+ t = String c (s +:+ t).
Proof. reflexivity. Qed.

Lemma str_app_nil (t : string) : EmptyString +:+ t = t.
Proof. reflexivity. Qed.

Lemma str_app_assoc (a b c : string) : (a +:+ b) +:+ c = a +:+ (b +:+ c).
Proof.
  induction a as [|x a IH]; [reflexivity|].
  rewrite !str_app_cons, IH. reflexivity.
Qed.

Lemma str_app_length (a b : string) :
  String.length (a +:+ b) = (String.length a + String.length b)%nat.
Proof.
  induction a as [|x a IH]; [reflexivity|].
  rewrite str_app_cons. simpl. rewrite IH. reflexivity.
Qed.

Lemma startswith_app_l (pat x y : string) :
  (String.length pat <= String.length x)%nat ->
  startswith pat (x +:+ y) = startswith pat x.
Proof.
  revert x. induction pat as [|a pat IH]; intros x H; [reflexivity|].
  destruct x as [|b x]; [simpl in H; lia|].
  rewrite str_app_cons. simpl. rewrite IH by (simpl in H; lia). reflexivity.
Qed.

Lemma startswith_self (pat rest : string) : startswith pat (pat +:+ rest) = true.
Proof.
  induction pat as [|a pat IH]; [reflexivity|].
  rewrite str_app_cons. simpl. rewrite Ascii.eqb_refl, IH. reflexivity.
Qed.

Lemma startswith_contains (pat s : string) : startswith pat s = true -> contains pat s = true.
Proof. intros H. destruct s; simpl in *; rewrite H; reflexivity. Qed.

Lemma contains_cons (pat : string) (c : ascii) (s : string) :
  contains pat (String c s) = (startswith pat (String c s) || contains pat s)%bool.
Proof. reflexivity. Qed.

Lemma contains_drop (pat : string) (n : nat) (s : string) :
  contains pat (drop_str n s) = true -> contains pat s = true.
Proof.
  revert s. induction n as [|n IH]; intros s H; [exact H|].
  destruct s as [|c s]; [exact H|].
  rewrite contains_cons. rewrite (IH s H). apply orb_true_r.
Qed.

Lemma startswith_app_r (a b s : string) :
  startswith (a +:+ b) s = true -> startswith b (drop_str (String.length a) s) = true.
Proof.
  revert s. induction a as [|x a IH]; intros s H; [exact H|].
  rewrite str_app_cons in H. destruct s as [|c s]; [discriminate H|].
  simpl in H. apply andb_true_iff in H as [_ H]. simpl. apply IH, H.
Qed.

(** A text that holds [a +:+ b] holds [b]. *)
Lemma contains_suffix (a b s : string) :
  contains (a +:+ b) s = true -> contains b s = true.
Proof.
  induction s as [|c s IH]; intros H.
  - simpl in H. rewrite orb_false_r in H.
    apply startswith_app_r in H. destruct (String.length a); exact (startswith_contains _ _ H).
  - rewrite contains_cons in H. apply orb_true_iff in H as [H|H].
    + apply (contains_drop b (String.length a)), startswith_contains, startswith_app_r, H.
    + rewrite contains_cons, (IH H). apply orb_true_r.
Qed.

Lemma drop_str_app (p s : string) : drop_str (String.length p) (p +:+ s) = s.
Proof. induction p as [|c p IH]; [reflexivity|]. rewrite str_app_cons. simpl. exact IH. Qed.

Lemma drop_str_add (n m : nat) (s : string) : drop_str (n + m) s = drop_str m (drop_str n s).
Proof.
  revert s. induction n as [|n IH]; intros s; [reflexivity|].
  destruct s as [|c s]; simpl; [destruct m; reflexivity|apply IH].
Qed.

Lemma take_str_app (p s : string) : take_str (String.length p) (p +:+ s) = p.
Proof.
  induction p as [|c p IH]; [reflexivity|]. rewrite str_app_cons. simpl. rewrite IH. reflexivity.
Qed.

(** *** Searching *)

Lemma find_cons (pat : string) (c : ascii) (s : string) :
  find pat (String c s)
  = if startswith pat (String c s) then Some O else option_map S (find pat s).
Proof. reflexivity. Qed.

Lemma find_some_contains (pat s : string) (n : nat) :
  find pat s = Some n -> contains pat s = true.
Proof.
  revert n. induction s as [|c s IH]; intros n H.
  - simpl in H. destruct (startswith pat EmptyString) eqn:E; [|discriminate].
    simpl. rewrite E. reflexivity.
  - rewrite find_cons in H. rewrite contains_cons.
    destruct (startswith pat (String c s)); [reflexivity|].
    destruct (find pat s) as [k|]; [|discriminate]. rewrite (IH k eq_refl). reflexivity.
Qed.

(** The first occurrence of a pattern is where it is written, when none
    starts earlier. *)
Lemma find_after (pat0 : string) (l : ascii) (p rest : string) :
  contains (pat0 +:+ str1 l) (p +:+ pat0) = false ->
  find (pat0 +:+ str1 l) (p +:+ (pat0 +:+ str1 l) +:+ rest) = Some (String.length p).
Proof.
  induction p as [|c p IH]; intros H.
  - rewrite str_app_nil. destruct ((pat0 +:+ str1 l) +:+ rest) eqn:E.
    + simpl. pose proof (startswith_self (pat0 +:+ str1 l) rest) as S. rewrite E in S.
      rewrite S. reflexivity.
    + rewrite find_cons, <- E, startswith_self. reflexivity.
  - rewrite str_app_cons in H. rewrite contains_cons in H.
    apply orb_false_iff in H as [H1 H2].
    rewrite str_app_cons, find_cons.
    replace (String c (p +:+ (pat0 +:+ str1 l) +:+ rest))
      with (String c (p +:+ pat0) +:+ (str1 l +:+ rest)).
    2:{ rewrite str_app_cons. f_equal. rewrite !str_app_assoc. reflexivity. }
    rewrite startswith_app_l.
    2:{ rewrite str_app_length. simpl. rewrite str_app_length. simpl. lia. }
    rewrite H1.
    replace (String c (p +:+ pat0) +:+ (str1 l +:+ rest))
      with (String c (p +:+ (pat0 +:+ str1 l) +:+ rest)).
    2:{ rewrite str_app_cons. f_equal. rewrite !str_app_assoc. reflexivity. }
    fold (find (pat0 +:+ str1 l) (p +:+ (pat0 +:+ str1 l) +:+ rest)).
    rewrite (IH H2). reflexivity.
Qed.

Lemma find_char_none (c : ascii) (t : string) :
  find (String c EmptyString) t = None -> free_of c t = true.
Proof.
  induction t as [|a t IH]; intros H; [reflexivity|].
  rewrite find_cons in H. simpl in H. simpl.
  rewrite Ascii.eqb_sym. destruct (Ascii.eqb c a); [discriminate|].
  simpl. apply IH. destruct (find (String c EmptyString) t); [discriminate|reflexivity].
Qed.

Lemma find_char_some (c : ascii) (t : string) (n : nat) :
  find (String c EmptyString) t = Some n -> free_of c (take_str n t) = true.
Proof.
  revert n. induction t as [|a t IH]; intros n H.
  - destruct n; reflexivity.
  - rewrite find_cons in H. simpl in H.
    destruct (Ascii.eqb c a) eqn:E.
    + injection H as <-. reflexivity.
    + destruct (find (String c EmptyString) t) as [k|] eqn:F; [|discriminate].
      injection H as <-. simpl. rewrite Ascii.eqb_sym, E. simpl. apply IH. reflexivity.
Qed.

Lemma find_char_free (c : ascii) (t : string) : free_of c t = true -> find (String c EmptyString) t = None.
Proof.
  induction t as [|a t IH]; intros H; [reflexivity|].
  simpl in H. apply andb_true_iff in H as [H1 H2].
  rewrite find_cons. simpl. rewrite Ascii.eqb_sym.
  destruct (Ascii.eqb a c); [discriminate|]. rewrite (IH H2). reflexivity.
Qed.

Lemma find_char_app (c : ascii) (t rest : string) :
  free_of c t = true -> find (String c EmptyString) (t +:+ String c rest) = Some (String.length t).
Proof.
  induction t as [|a t IH]; intros H.
  - rewrite str_app_nil, find_cons. simpl. rewrite Ascii.eqb_refl. reflexivity.
  - simpl in H. apply andb_true_iff in H as [H1 H2].
    rewrite str_app_cons, find_cons. simpl. rewrite Ascii.eqb_sym.
    destruct (Ascii.eqb a c); [discriminate|]. rewrite (IH H2). reflexivity.
Qed.

Lemma free_of_app (c : ascii) (a b : string) :
  free_of c (a +:+ b) = (free_of c a && free_of c b)%bool.
Proof.
  induction a as [|x a IH]; [reflexivity|].
  rewrite str_app_cons. simpl. rewrite IH, andb_assoc. reflexivity.
Qed.

Lemma free_of_take (c : ascii) (n : nat) (t : string) :
  free_of c t = true -> free_of c (take_str n t) = true.
Proof.
  revert t. induction n as [|n IH]; intros t H; [reflexivity|].
  destruct t as [|a t]; [reflexivity|].
  simpl in *. apply andb_true_iff in H as [H1 H2]. rewrite H1, (IH t H2). reflexivity.
Qed.

Lemma rstrip_char_free (c : ascii) (t : string) : free_of c t = true -> rstrip_char c t = t.
Proof.
  induction t as [|a t IH]; intros H; [reflexivity|].
  simpl in H. apply andb_true_iff in H as [H1 H2].
  simpl. rewrite (IH H2). destruct t; [|reflexivity].
  destruct (Ascii.eqb a c); [discriminate|reflexivity].
Qed.

Lemma strip_char_free (c : ascii) (t : string) : free_of c t = true -> strip_char c t = t.
Proof.
  intros H. unfold strip_char.
  assert (lstrip_char c t = t) as ->.
  { destruct t as [|a t]; [reflexivity|]. simpl in *.
    destruct (Ascii.eqb a c); [discriminate|reflexivity]. }
  apply rstrip_char_free, H.
Qed.

(** *** extract_file_id_from_url *)

(** The text before the strip holds no slash, so the strip of line 336
    never removes anything. *)
Lemma delimited_free (pattern url : string) : free_of "/" (delimited pattern url) = true.
Proof.
  unfold delimited, find_from, slice.
  set (start := (default O (find pattern url) + String.length pattern)%nat).
  assert (forall t, free_of "/" t = true -> free_of "/" (strip_char "/" t) = true) as Hs.
  { intros t H. rewrite (strip_char_free _ _ H). exact H. }
  destruct (find "/" (drop_str start url)) as [n|] eqn:F; simpl.
  - apply Hs. replace (start + n - start)%nat with n by lia.
    exact (find_char_some "/" _ _ F).
  - pose proof (find_char_none "/" _ F) as Hfree.
    destruct (find "?" (drop_str start url)) as [n|]; simpl; apply Hs.
    + apply free_of_take, Hfree.
    + exact Hfree.
Qed.

Lemma first_file_id_shape (ps : list string) (url file_id : string) :
  first_file_id ps url = Some file_id ->
  file_id <> EmptyString /\ free_of "/" file_id = true.
Proof.
  induction ps as [|pattern ps IH]; simpl; [discriminate|].
  destruct (contains pattern url); [|exact IH].
  pose proof (delimited_free pattern url) as Hfree.
  destruct (delimited pattern url) as [|c t]; [exact IH|].
  intros H. injection H as <-. split; [discriminate|exact Hfree].
Qed.

(** A file id that is returned is not empty and holds no slash. *)
Theorem extract_file_id_shape (url file_id : string) :
  extract_file_id_from_url url = Some file_id ->
  file_id <> EmptyString /\ free_of "/" file_id = true.
Proof. apply first_file_id_shape. Qed.

Lemma extract_file_id_shape_witness :
  "1AbC_x-9" <> EmptyString /\ free_of "/" "1AbC_x-9" = true.
Proof.
  exact (extract_file_id_shape "https://docs.google.com/document/d/1AbC_x-9/edit?usp=sharing"
           "1AbC_x-9" eq_refl).
Defined.

(** A URL that holds neither [/d/] nor [id=] has no file id: the third
    pattern, [/file/d/], never finds what the first did not. *)
Theorem extract_file_id_none (url : string) :
  contains "/d/" url = false ->
  contains "id=" url = false ->
  extract_file_id_from_url url = None.
Proof.
  intros H1 H2. unfold extract_file_id_from_url, patterns. simpl first_file_id.
  rewrite H1, H2.
  destruct (contains "/file/d/" url) eqn:H3; [|reflexivity].
  change "/file/d/" with ("/file" +:+ "/d/") in H3.
  rewrite (contains_suffix _ _ _ H3) in H1. discriminate H1.
Qed.

Lemma extract_file_id_none_witness :
  extract_file_id_from_url "https://example.com/notes.txt" = None.
Proof. exact (extract_file_id_none "https://example.com/notes.txt" eq_refl eq_refl). Defined.

Lemma str_app_nil_r (s : string) : s +:+ EmptyString = s.
Proof. induction s as [|c s IH]; [reflexivity|]. rewrite str_app_cons, IH. reflexivity. Qed.

Lemma delimited_here (pat0 : string) (l : ascii) (p v tail : string) :
  contains (pat0 +:+ str1 l) (p +:+ pat0) = false ->
  free_of "/" v = true -> free_of "?" v = true -> ends_id tail = true ->
  delimited (pat0 +:+ str1 l) (p +:+ (pat0 +:+ str1 l) +:+ v +:+ tail) = v.
Proof.
  intros Hfirst Hs Hq Ht. unfold delimited, find_from, slice.
  rewrite (find_after pat0 l p (v +:+ tail) Hfirst). simpl default.
  rewrite drop_str_add, drop_str_app, drop_str_app.
  set (start := (String.length p + String.length (pat0 +:+ str1 l))%nat).
  destruct tail as [|c t].
  - rewrite str_app_nil_r, (find_char_free "/" v Hs), (find_char_free "?" v Hq). simpl.
    apply strip_char_free, Hs.
  - simpl in Ht. destruct (Ascii.eqb_spec c "/") as [->|Hc].
    + rewrite (find_char_app "/" v t Hs). simpl.
      replace (start + String.length v - start)%nat with (String.length v) by lia.
      rewrite take_str_app. apply strip_char_free, Hs.
    + simpl in Ht. apply andb_true_iff in Ht as [Hc' Hfree].
      apply Ascii.eqb_eq in Hc'. subst c.
      rewrite (find_char_free "/" (v +:+ String "?" t)).
      2:{ rewrite free_of_app, Hs. simpl. exact Hfree. }
      rewrite (find_char_app "?" v t Hq). simpl.
      replace (start + String.length v - start)%nat with (String.length v) by lia.
      rewrite take_str_app. apply strip_char_free, Hs.
Qed.

Lemma contains_here (pat0 : string) (l : ascii) (p rest : string) :
  contains (pat0 +:+ str1 l) (p +:+ pat0) = false ->
  contains (pat0 +:+ str1 l) (p +:+ (pat0 +:+ str1 l) +:+ rest) = true.
Proof. intros H. exact (find_some_contains _ _ _ (find_after pat0 l p rest H)). Qed.

(** A document URL: when the first [/d/] of the URL is the one written
    before the id, and the id, free of slashes and question marks, is
    followed by nothing, by a slash or by a query, the id is returned. *)
Theorem extract_file_id_document (p file_id tail : string) :
  contains "/d/" (p +:+ "/d") = false ->
  file_id <> EmptyString ->
  free_of "/" file_id = true -> free_of "?" file_id = true ->
  ends_id tail = true ->
  extract_file_id_from_url (p +:+ "/d/" +:+ file_id +:+ tail) = Some file_id.
Proof.
  intros Hfirst Hne Hs Hq Ht. unfold extract_file_id_from_url, patterns. simpl first_file_id.
  change "/d/" with ("/d" +:+ str1 "/") in *.
  rewrite (contains_here "/d" "/" p (file_id +:+ tail) Hfirst).
  rewrite (delimited_here "/d" "/" p file_id tail Hfirst Hs Hq Ht).
  destruct file_id; [congruence|reflexivity].
Qed.

Lemma extract_file_id_document_witness :
  extract_file_id_from_url "https://docs.google.com/document/d/1AbC_x-9/edit?usp=sharing"
  = Some "1AbC_x-9".
Proof.
  refine (extract_file_id_document "https://docs.google.com/document" "1AbC_x-9"
            "/edit?usp=sharing" eq_refl _ eq_refl eq_refl eq_refl).
  discriminate.
Defined.



End SetupFacts.

(** ** Fetch failures, the cycle and the loop *)

Module PollFacts.
Import Py Db Drive DriveSpec DriveSetup.

Ltac run_monad :=
  unfold bind, ret, lift, print, emit, db_read, db_write, try_except, raise.

Lemma get_file_metadata_http (w : World) (fid : string) (d : DB) (e : exn) :
  files_get w fid = Raise e -> is_HttpError e = true ->
  get_file_metadata w fid d
  = mk_outcome (Ok None) d
      [Print ("Error fetching metadata for " +:+ fid +:+ ": " +:+ exn_str e)].
Proof. intros H He. unfold get_file_metadata. run_monad. rewrite H, He. reflexivity. Qed.

Lemma get_file_metadata_raise (w : World) (fid : string) (d : DB) (e : exn) :
  files_get w fid = Raise e -> is_HttpError e = false ->
  get_file_metadata w fid d = mk_outcome (Raise e) d [].
Proof. intros H He. unfold get_file_metadata. run_monad. rewrite H, He. reflexivity. Qed.

Lemma get_document_content_http (w : World) (fid : string) (d : DB) (e : exn) :
  export_media w fid = Raise e -> is_HttpError e = true ->
  get_document_content w fid d
  = mk_outcome (Ok None) d
      [Print ("Error fetching document " +:+ fid +:+ ": " +:+ exn_str e)].
Proof. intros H He. unfold get_document_content. run_monad. rewrite H, He. reflexivity. Qed.

Lemma get_document_content_raise (w : World) (fid : string) (d : DB) (e : exn) :
  export_media w fid = Raise e -> is_HttpError e = false ->
  get_document_content w fid d = mk_outcome (Raise e) d [].
Proof. intros H He. unfold get_document_content. run_monad. rewrite H, He. reflexivity. Qed.

Lemma process_document_no_metadata (w : World) (fid cid : string) (d : DB) (e : exn) :
  files_get w fid = Raise e -> is_HttpError e = true ->
  process_document w fid cid d
  = mk_outcome (Ok tt) d
      [Print ("Error fetching metadata for " +:+ fid +:+ ": " +:+ exn_str e);
       Print ("Failed to get metadata for file " +:+ fid)].
Proof.
  intros H He. unfold process_document, bind.
  rewrite (get_file_metadata_http w fid d e H He). reflexivity.
Qed.

Lemma process_document_metadata_raise (w : World) (fid cid : string) (d : DB) (e : exn) :
  files_get w fid = Raise e -> is_HttpError e = false ->
  process_document w fid cid d = mk_outcome (Raise e) d [].
Proof.
  intros H He. unfold process_document, bind.
  rewrite (get_file_metadata_raise w fid d e H He). reflexivity.
Qed.

Lemma process_document_no_content (w : World) (fid cid : string) (d : DB) metadata (e : exn) :
  files_get w fid = Ok metadata ->
  export_media w fid = Raise e -> is_HttpError e = true ->
  process_document w fid cid d
  = mk_outcome (Ok tt) d
      [Print ("Error fetching document " +:+ fid +:+ ": " +:+ exn_str e);
       Print ("Failed to extract content from file " +:+ fid)].
Proof.
  intros Hm H He. unfold process_document.
  rewrite (DriveFacts.bind_pure _ _ _ _ (DriveFacts.get_file_metadata_ok _ _ _ _ Hm)).
  unfold bind. rewrite (get_document_content_http w fid d e H He). reflexivity.
Qed.

Lemma process_document_content_raise (w : World) (fid cid : string) (d : DB) metadata (e : exn) :
  files_get w fid = Ok metadata ->
  export_media w fid = Raise e -> is_HttpError e = false ->
  process_document w fid cid d = mk_outcome (Raise e) d [].
Proof.
  intros Hm H He. unfold process_document.
  rewrite (DriveFacts.bind_pure _ _ _ _ (DriveFacts.get_file_metadata_ok _ _ _ _ Hm)).
  unfold bind. rewrite (get_document_content_raise w fid d e H He). reflexivity.
Qed.

(** When Drive answers a fetch of the metadata or of the content with
    an [HttpError], the document is skipped: processing returns
    normally, the failure is printed, nothing is forwarded and the
    database is as it was. *)
Theorem fetch_http_error_skips (w : World) (fid cid : string) (d : DB) (e : exn) :
  is_HttpError e = true ->
  files_get w fid = Raise e
  \/ (exists metadata, files_get w fid = Ok metadata /\ export_media w fid = Raise e) ->
  let o := process_document w fid cid d in
  result o = Ok tt /\ final_db o = d
  /\ forwards (events o) = [] /\ store_writes (events o) = []
  /\ exists line, last (events o) = Some (Print line)
                  /\ (line = "Failed to get metadata for file " +:+ fid
                      \/ line = "Failed to extract content from file " +:+ fid).
Proof.
  intros He [H | (metadata & Hm & H)]; cbv zeta.
  - rewrite (process_document_no_metadata w fid cid d e H He). simpl.
    repeat split. eexists. split; [reflexivity|]. left. reflexivity.
  - rewrite (process_document_no_content w fid cid d metadata e Hm H He). simpl.
    repeat split. eexists. split; [reflexivity|]. right. reflexivity.
Qed.

Lemma fetch_http_error_skips_witness :
  result (process_document SetupFixtures.world_not_found "doc-1" "ALEX" Fixtures.db_tracked)
  = Ok tt
  /\ final_db (process_document SetupFixtures.world_not_found "doc-1" "ALEX" Fixtures.db_tracked)
     = Fixtures.db_tracked.
Proof.
  destruct (fetch_http_error_skips SetupFixtures.world_not_found "doc-1" "ALEX"
              Fixtures.db_tracked (mk_exn HttpError "<HttpError 404 File not found>")
              eq_refl (or_introl eq_refl)) as (H1 & H2 & _).
  split; [exact H1|exact H2].
Defined.

(** *** One document, whatever the collaborators do *)

Lemma process_document_bounds (w : World) (fid cid : string) (d : DB) :
  let o := process_document w fid cid d in
  (length (forwards (events o)) <= 1)%nat
  /\ (length (store_writes (events o)) <= length (forwards (events o)))%nat
  /\ (store_writes (events o) = [] -> final_db o = d).
Proof.
  cbv zeta.
  destruct (files_get w fid) as [metadata|e] eqn:Hm.
  - destruct (export_media w fid) as [content|e] eqn:Hc.
    + rewrite (DriveFacts.process_document_fetched _ _ _ _ _ _ Hm Hc).
      destruct content as [|c content]; [simpl; auto|].
      destruct (DriveFacts.process_fetched_bounds w fid cid metadata (String c content) d)
        as (B1 & B2 & B3 & _). auto.
    + destruct (is_HttpError e) eqn:He.
      * rewrite (process_document_no_content w fid cid d metadata e Hm Hc He). simpl. auto.
      * rewrite (process_document_content_raise w fid cid d metadata e Hm Hc He). simpl. auto.
  - destruct (is_HttpError e) eqn:He.
    + rewrite (process_document_no_metadata w fid cid d e Hm He). simpl. auto.
    + rewrite (process_document_metadata_raise w fid cid d e Hm He). simpl. auto.
Qed.

Lemma forwards_app (a b : list Event) : forwards (a ++ b) = (forwards a ++ forwards b)%list.
Proof. unfold forwards. apply filter_app. Qed.

Lemma store_writes_app (a b : list Event) :
  store_writes (a ++ b) = (store_writes a ++ store_writes b)%list.
Proof. unfold store_writes. apply filter_app. Qed.

Lemma for_each_step (fid : string) (rest : list string) (body : string -> M unit) (d : DB) :
  for_each (fid :: rest) body d
  = match body fid d with
    | mk_outcome (Ok _) d' evs =>
      mk_outcome (result (for_each rest body d')) (final_db (for_each rest body d'))
                 (evs ++ events (for_each rest body d'))
    | mk_outcome (Raise e) d' evs => mk_outcome (Raise e) d' evs
    end.
Proof.
  simpl. unfold bind. destruct (body fid d) as [[u|e] d' evs]; [|reflexivity].
  destruct (for_each rest body d'). reflexivity.
Qed.

(** In one pass over the watched documents, whatever Drive and the
    backend answer: at most one forward per document, no store write
    without a forward, and a database that is what it was when nothing
    was written. *)
Theorem cycle_bounds (w : World) (file_ids : list string) (cid : string) (d : DB) :
  let o := for_each file_ids (fun fid => process_document w fid cid) d in
  (length (forwards (events o)) <= length file_ids)%nat
  /\ (length (store_writes (events o)) <= length (forwards (events o)))%nat
  /\ (store_writes (events o) = [] -> final_db o = d).
Proof.
  cbv zeta. revert d. induction file_ids as [|fid rest IH]; intros d.
  - simpl. auto.
  - rewrite for_each_step.
    pose proof (process_document_bounds w fid cid d) as (B1 & B2 & B3). cbv zeta in *.
    destruct (process_document w fid cid d) as [[u|e] d' evs]; simpl in *.
    + destruct (IH d') as (I1 & I2 & I3).
      rewrite forwards_app, store_writes_app, !length_app. repeat split; [lia|lia|].
      intros H. apply app_eq_nil in H as [Ha Hb].
      rewrite (I3 Hb). exact (B3 Ha).
    + repeat split; [lia|lia|exact B3].
Qed.

(** *** A failure that is not an [HttpError] *)

Lemma for_each_prefix_raise (body : string -> M unit) (done : list string) (fid : string)
    (rest : list string) (d d1 d2 : DB) (evs evs2 : list Event) (e : exn) :
  for_each done body d = mk_outcome (Ok tt) d1 evs ->
  body fid d1 = mk_outcome (Raise e) d2 evs2 ->
  for_each (done ++ fid :: rest) body d = mk_outcome (Raise e) d2 (evs ++ evs2).
Proof.
  revert d evs. induction done as [|a done IH]; intros d evs Hdone Hfid.
  - simpl in Hdone. unfold ret in Hdone. injection Hdone as <- <-.
    rewrite app_nil_l, for_each_step, Hfid. reflexivity.
  - rewrite <- app_comm_cons, for_each_step. rewrite for_each_step in Hdone.
    destruct (body a d) as [[u|e'] d' evs']; [|discriminate Hdone].
    destruct (for_each done body d') as [r0 d0 evs0] eqn:E. simpl in Hdone.
    injection Hdone as -> -> <-.
    rewrite (IH d' evs0 E Hfid). simpl. rewrite app_assoc. reflexivity.
Qed.

Lemma Exception_not_interrupt (e : exn) : is_Exception e = true -> is_KeyboardInterrupt e = false.
Proof. unfold is_Exception, is_KeyboardInterrupt. destruct (exn_cls e); congruence. Qed.

Lemma poll_cycle_raise (w : World) (file_ids : list string) (cid : string) (interval : Z)
    (d d' : DB) (evs : list Event) (e : exn) :
  for_each file_ids (fun fid => process_document w fid cid) d = mk_outcome (Raise e) d' evs ->
  is_Exception e = true ->
  sleep w interval = Ok tt ->
  poll_cycle w file_ids cid interval d
  = mk_outcome (Ok Continue) d'
      (evs ++ [Print ("Error during polling: " +:+ exn_str e); Sleep interval]).
Proof.
  intros H He Hs. unfold poll_cycle. unfold bind at 1. rewrite H.
  rewrite (Exception_not_interrupt e He), He.
  run_monad. rewrite Hs. reflexivity.
Qed.

Lemma poll_loop_cons (w : World) (ws : list World) (file_ids : list string) (cid : string)
    (interval : Z) (d d' : DB) (evs : list Event) :
  poll_cycle w file_ids cid interval d = mk_outcome (Ok Continue) d' evs ->
  poll_loop (w :: ws) file_ids cid interval d
  = mk_outcome (result (poll_loop ws file_ids cid interval d'))
               (final_db (poll_loop ws file_ids cid interval d'))
               (evs ++ events (poll_loop ws file_ids cid interval d')).
Proof.
  intros H. simpl. unfold bind. rewrite H.
  destruct (poll_loop ws file_ids cid interval d'). reflexivity.
Qed.

(** When reading the metadata of a document fails with an exception
    that is not an [HttpError], the documents listed after it are not
    processed in that cycle: the cycle reports the error, sleeps, and
    the loop goes on to the next cycle from the database the documents
    before it left. *)
Theorem fetch_failure_aborts_cycle (w : World) (ws : list World) (done : list string)
    (fid : string) (rest : list string) (cid : string) (interval : Z) (d d1 : DB)
    (evs : list Event) (e : exn) :
  for_each done (fun f => process_document w f cid) d = mk_outcome (Ok tt) d1 evs ->
  files_get w fid = Raise e ->
  is_HttpError e = false -> is_Exception e = true ->
  sleep w interval = Ok tt ->
  let file_ids := (done ++ fid :: rest)%list in
  let later := poll_loop ws file_ids cid interval d1 in
  poll_cycle w file_ids cid interval d
  = mk_outcome (Ok Continue) d1
      (evs ++ [Print ("Error during polling: " +:+ exn_str e); Sleep interval])
  /\ poll_loop (w :: ws) file_ids cid interval d
     = mk_outcome (result later) (final_db later)
         ((evs ++ [Print ("Error during polling: " +:+ exn_str e); Sleep interval])
          ++ events later).
Proof.
  intros Hdone Hget Hhttp He Hs. cbv zeta.
  pose proof (process_document_metadata_raise w fid cid d1 e Hget Hhttp) as Hfid.
  pose proof (for_each_prefix_raise (fun f => process_document w f cid)
                done fid rest d d1 d1 evs [] e Hdone Hfid) as Hall.
  rewrite app_nil_r in Hall.
  pose proof (poll_cycle_raise w _ cid interval d d1 evs e Hall He Hs) as Hc.
  split; [exact Hc|]. apply poll_loop_cons, Hc.
Qed.

Lemma fetch_failure_aborts_cycle_witness :
  poll_cycle SetupFixtures.world_offline ["doc-1"; "doc-2"] "ALEX" 300 Fixtures.db_registered
  = mk_outcome (Ok Continue) Fixtures.db_registered
      [Print "Error during polling: connection reset"; Sleep 300].
Proof.
  exact (proj1 (fetch_failure_aborts_cycle SetupFixtures.world_offline [] [] "doc-1" ["doc-2"]
                  "ALEX" 300 Fixtures.db_registered Fixtures.db_registered []
                  (mk_exn RuntimeError "connection reset")
                  eq_refl eq_refl eq_refl eq_refl eq_refl)).
Defined.

(** *** Stopping *)

(** When the wait that ends a cycle is interrupted from the keyboard,
    the poller prints that it stops and returns: no later cycle runs,
    whatever it would have found. *)
Theorem keyboard_interrupt_stops (w : World) (ws : list World) (file_ids : list string)
    (cid : string) (interval : Z) (d d1 : DB) (evs : list Event) (e : exn) :
  for_each file_ids (fun f => process_document w f cid) d = mk_outcome (Ok tt) d1 evs ->
  sleep w interval = Raise e ->
  is_KeyboardInterrupt e = true ->
  poll_documents (w :: ws) file_ids cid interval d
  = mk_outcome (Ok tt) d1
      (Print ("Starting Drive polling for " +:+ str_of_nat (length file_ids)
              +:+ " documents (interval: " +:+ str_of_Z interval +:+ "s)")
       :: evs
       ++ [Print ("Waiting " +:+ str_of_Z interval +:+ " seconds before next poll...");
           Sleep interval;
           Print (str1 nl +:+ "Stopping Drive polling...")]).
Proof.
  intros Hall Hs He.
  assert (poll_cycle w file_ids cid interval d
          = mk_outcome (Ok Break) d1
              (evs ++ [Print ("Waiting " +:+ str_of_Z interval +:+ " seconds before next poll...");
                       Sleep interval;
                       Print (str1 nl +:+ "Stopping Drive polling...")])) as Hc.
  { unfold poll_cycle. unfold bind at 1. rewrite Hall. run_monad. rewrite Hs.
    cbv beta iota. rewrite He. rewrite <- !app_assoc. reflexivity. }
  unfold poll_documents. simpl poll_loop. unfold print, emit, bind.
  cbv beta iota. rewrite Hc. unfold ret. cbv beta iota. rewrite app_nil_r. reflexivity.
Qed.

Lemma keyboard_interrupt_stops_witness :
  result (poll_documents [SetupFixtures.world_interrupted; Fixtures.world_ok] [] "ALEX" 300
            Fixtures.db_registered) = Ok tt
  /\ length (events (poll_documents [SetupFixtures.world_interrupted; Fixtures.world_ok] []
                       "ALEX" 300 Fixtures.db_registered)) = 4%nat.
Proof.
  rewrite (keyboard_interrupt_stops SetupFixtures.world_interrupted [Fixtures.world_ok] []
             "ALEX" 300 Fixtures.db_registered Fixtures.db_registered []
             (mk_exn KeyboardInterrupt EmptyString) eq_refl eq_refl eq_refl).
  split; reflexivity.
Defined.

(** *** Registration *)

Lemma register_new (w : World) (fid cid : string) (d : DB) (metadata : Metadata) :
  files_get w fid = Ok metadata ->
  lookup_drive_document d fid = None ->
  register_document_for_monitoring w fid cid d
  = let doc := mk_doc fid cid (md_name metadata) EmptyString
                      (md_modifiedTime metadata) EmptyString in
    mk_outcome (Ok tt) (create_drive_document d doc)
      [CreateDriveDocument doc;
       Print ("Registered document for monitoring: " +:+ md_name metadata)].
Proof.
  intros Hm Hl. unfold register_document_for_monitoring.
  rewrite (DriveFacts.bind_pure _ _ _ _ (DriveFacts.get_file_metadata_ok _ _ _ _ Hm)).
  rewrite DriveFacts.bind_db_read, Hl. reflexivity.
Qed.

Lemma register_known (w : World) (fid cid : string) (d : DB) (metadata : Metadata)
    (doc : WatchedDocument) :
  files_get w fid = Ok metadata ->
  lookup_drive_document d fid = Some doc ->
  register_document_for_monitoring w fid cid d
  = mk_outcome (Ok tt) d [Print ("Document already registered: " +:+ md_name metadata)].
Proof.
  intros Hm Hl. unfold register_document_for_monitoring.
  rewrite (DriveFacts.bind_pure _ _ _ _ (DriveFacts.get_file_metadata_ok _ _ _ _ Hm)).
  rewrite DriveFacts.bind_db_read, Hl. reflexivity.
Qed.

Lemma lookup_created (d : DB) (doc : WatchedDocument) :
  lookup_drive_document (create_drive_document d doc) (file_id doc) = Some doc.
Proof. unfold lookup_drive_document, create_drive_document. simpl. apply lookup_insert_eq. Qed.

(** A file Drive does not let the poller read cannot be registered:
    the call raises [ValueError] and the database is not written. *)
Theorem register_inaccessible (w : World) (fid cid : string) (d : DB) (e : exn) :
  files_get w fid = Raise e -> is_HttpError e = true ->
  register_document_for_monitoring w fid cid d
  = mk_outcome (Raise (mk_exn ValueError ("Cannot access file " +:+ fid))) d
      [Print ("Error fetching metadata for " +:+ fid +:+ ": " +:+ exn_str e)].
Proof.
  intros H He. unfold register_document_for_monitoring, bind.
  rewrite (get_file_metadata_http w fid d e H He). unfold raise. rewrite app_nil_r. reflexivity.
Qed.

Lemma register_inaccessible_witness :
  register_document_for_monitoring SetupFixtures.world_not_found "doc-9" "ALEX"
    Fixtures.db_registered
  = mk_outcome (Raise (mk_exn ValueError "Cannot access file doc-9")) Fixtures.db_registered
      [Print "Error fetching metadata for doc-9: <HttpError 404 File not found>"].
Proof.
  exact (register_inaccessible SetupFixtures.world_not_found "doc-9" "ALEX"
           Fixtures.db_registered (mk_exn HttpError "<HttpError 404 File not found>")
           eq_refl eq_refl).
Defined.

(** Registering a reachable document leaves it with a record, and never
    touches a record that is already there: a document that has been
    polled keeps its hash and content when it is registered again, and
    registering twice is registering once. *)
Theorem register_idempotent (w w' : World) (fid cid cid' : string) (d : DB)
    (metadata metadata' : Metadata) :
  files_get w fid = Ok metadata ->
  files_get w' fid = Ok metadata' ->
  let o := register_document_for_monitoring w fid cid d in
  result o = Ok tt
  /\ lookup_drive_document (final_db o) fid
     = Some (default (mk_doc fid cid (md_name metadata) EmptyString
                             (md_modifiedTime metadata) EmptyString)
                     (lookup_drive_document d fid))
  /\ (forall doc, lookup_drive_document d fid = Some doc ->
        final_db o = d /\ store_writes (events o) = [])
  /\ final_db (register_document_for_monitoring w' fid cid' (final_db o)) = final_db o
  /\ store_writes (events (register_document_for_monitoring w' fid cid' (final_db o))) = [].
Proof.
  intros Hm Hm'. cbv zeta.
  destruct (lookup_drive_document d fid) as [doc|] eqn:Hl.
  - rewrite (register_known w fid cid d metadata doc Hm Hl). simpl.
    rewrite (register_known w' fid cid' d metadata' doc Hm' Hl). simpl.
    repeat split; auto.
  - rewrite (register_new w fid cid d metadata Hm Hl). cbv zeta. simpl final_db.
    pose proof (lookup_created d (mk_doc fid cid (md_name metadata) EmptyString
                                          (md_modifiedTime metadata) EmptyString)) as Hc.
    simpl file_id in Hc.
    rewrite (register_known w' fid cid' _ metadata' _ Hm' Hc). simpl.
    repeat split; auto; discriminate.
Qed.

Lemma register_idempotent_witness :
  lookup_drive_document
    (final_db (register_document_for_monitoring Fixtures.world_ok "doc-1" "ALEX"
                 Fixtures.db_tracked)) "doc-1"
  = Some (mk_doc "doc-1" "ALEX" "Kickoff notes" (compute_content_hash "draft")
                 "2024-01-01T09:00:00.000Z" "draft").
Proof.
  exact (proj1 (proj2 (register_idempotent Fixtures.world_ok Fixtures.world_ok "doc-1" "ALEX"
                         "ALEX" Fixtures.db_tracked Fixtures.notes Fixtures.notes
                         eq_refl eq_refl))).
Defined.

Lemma forward_succeeds_created (w : World) (d : DB) (doc : WatchedDocument)
    (cid content key thread : string) :
  forward_succeeds w d cid content key thread ->
  forward_succeeds w (create_drive_document d doc) cid content key thread.
Proof.
  intros [client assistant H1 H2 H3 H4 H5].
  exact (forward_ok w (create_drive_document d doc) cid content key thread
           client assistant H1 H2 H3 H4 H5).
Qed.

Lemma lookup_updated (d : DB) (fid hash content : string) (doc : WatchedDocument) :
  lookup_drive_document d fid = Some doc ->
  lookup_drive_document (update_drive_document d fid hash content) fid
  = Some (mk_doc (file_id doc) (client_id doc) (file_name doc) hash (last_modified doc) content).
Proof.
  unfold lookup_drive_document, update_drive_document. simpl. intros H.
  rewrite lookup_alter_eq, H. reflexivity.
Qed.



End PollFacts.

(** ** The summary, the graph and the detector *)

Module ToolFacts.
Import Py Datetime Tools ToolSpec RouterSpec ToolFixtures.

(** *** format_recent_context *)

Lemma format_items_contents (items : list MemoryEntry) :
  format_items items
  = join (map (fun content => "  • " +:+ content +:+ str1 nl) (map e_content (take 5 items))).
Proof. unfold format_items. rewrite map_map. reflexivity. Qed.

(** The summary shows, for each source, the number of its entries and
    the content of its first five: two contexts that agree on these
    have the same summary, whatever else their entries hold. *)
Theorem format_recent_context_shows (c1 c2 : RecentContext) (hours : Z) :
  (forall b, length (bucket c1 b) = length (bucket c2 b)
             /\ map e_content (take 5 (bucket c1 b)) = map e_content (take 5 (bucket c2 b))) ->
  format_recent_context c1 hours = format_recent_context c2 hours.
Proof.
  intros H.
  destruct (H Telegram) as [Lt Ct], (H Drive) as [Ld Cd], (H Github) as [Lg Cg].
  simpl in Lt, Ct, Ld, Cd, Lg, Cg.
  unfold format_recent_context. cbv zeta.
  rewrite !format_items_contents, Lt, Ld, Lg, Ct, Cd, Cg. reflexivity.
Qed.

Lemma format_recent_context_shows_witness :
  format_recent_context
    (mk_context (map entry_of [drive_recent; telegram_old; drive_ahead; github_at_cutoff;
                               drive_unreadable; slack_recent]) [] []) 24
  = format_recent_context
      (mk_context (map entry_of [drive_recent; telegram_old; drive_ahead; github_at_cutoff;
                                 drive_unreadable; drive_recent]) [] []) 24.
Proof.
  apply format_recent_context_shows. intros b. destruct b; split; reflexivity.
Defined.

(** *** Nothing recent *)

Lemma context_of_buckets (c : RecentContext) :
  (forall b, bucket c b = []) -> c = mk_context [] [] [].
Proof.
  intros H. destruct c as [t d g].
  pose proof (H Telegram) as Ht. pose proof (H Drive) as Hd. pose proof (H Github) as Hg.
  simpl in Ht, Hd, Hg. subst. reflexivity.
Qed.

(** When the query returns memories of which none falls in a bucket,
    the call succeeds with three empty buckets and a summary that says
    so. *)
Theorem recent_context_nothing (fromisoformat : string -> option datetime) (now : Z)
    (client_id : string) (hours : Z) (backboard_client : BackboardClient)
    (assistant_id : string) (memories : list Memory) (delta cutoff_time : Z) :
  get_memories backboard_client assistant_id = Ok memories ->
  timedelta_hours hours = Ok delta ->
  datetime_sub now delta = Ok cutoff_time ->
  (forall b, selected (in_code_window fromisoformat cutoff_time) b memories = []) ->
  handle_get_recent_context fromisoformat now client_id hours backboard_client assistant_id
  = Ok {[ "tool" := VStr "get_recent_context";
          "status" := VStr "success";
          "hours" := VInt hours;
          "context" := VContext (mk_context [] [] []);
          "formatted" := VStr ("📊 Recent Activity (Last " +:+ str_of_Z hours +:+ " hours)"
                               +:+ str1 nl +:+ str1 nl
                               +:+ "No recent activity found in the specified time period."
                               +:+ str1 nl) ]}.
Proof.
  intros Hq Ht Hs Hnone.
  rewrite (RouterFacts.recent_context_result fromisoformat now client_id hours
             backboard_client assistant_id memories delta cutoff_time Hq Ht Hs).
  cbv zeta.
  rewrite (context_of_buckets
             (fold_left (group_memory fromisoformat cutoff_time) memories (mk_context [] [] []))).
  - reflexivity.
  - intros b. rewrite RouterFacts.fold_group_memory_bucket, Hnone. destruct b; reflexivity.
Qed.

Lemma recent_context_nothing_witness :
  returned_status (handle_get_recent_context Iso.fromisoformat noon "ALEX" 24
                     (board_of [telegram_old; drive_unreadable; slack_recent]) "asst-1")
  = Some "success".
Proof.
  rewrite (recent_context_nothing Iso.fromisoformat noon "ALEX" 24
             (board_of [telegram_old; drive_unreadable; slack_recent]) "asst-1"
             [telegram_old; drive_unreadable; slack_recent]
             (24 * 3600000000) (noon - 24 * 3600000000) eq_refl eq_refl eq_refl).
  - reflexivity.
  - intros b. destruct b; reflexivity.
Defined.

(** *** A window that reaches before the calendar *)

(** When [now - hours] falls before year 1, the subtraction overflows
    and the call returns the error result with the text of that
    exception; no memory is returned. *)
Theorem recent_context_before_calendar (fromisoformat : string -> option datetime) (now : Z)
    (client_id : string) (hours : Z) (backboard_client : BackboardClient)
    (assistant_id : string) (memories : list Memory) :
  get_memories backboard_client assistant_id = Ok memories ->
  0 <= hours / 24 <= 999999999 ->
  now < hours * 3600000000 ->
  handle_get_recent_context fromisoformat now client_id hours backboard_client assistant_id
  = Ok {[ "tool" := VStr "get_recent_context";
          "status" := VStr "error";
          "error" := VStr "date value out of range" ]}.
Proof.
  intros Hq Hdays Hnow. unfold handle_get_recent_context, query_memories. rewrite Hq. simpl.
  unfold timedelta_hours.
  assert (((hours / 24 <? -2147483648) || (2147483647 <? hours / 24))%bool = false) as ->.
  { apply orb_false_iff. split; apply Z.ltb_ge; lia. }
  assert ((999999999 <? Z.abs (hours / 24)) = false) as -> by (apply Z.ltb_ge; lia).
  simpl. unfold datetime_sub.
  assert (((now - hours * 3600000000 <? 0) || (max_us <? now - hours * 3600000000))%bool = true)
    as ->.
  { apply orb_true_iff. left. apply Z.ltb_lt. lia. }
  reflexivity.
Qed.

Lemma recent_context_before_calendar_witness :
  handle_get_recent_context Iso.fromisoformat noon "ALEX" 20000000
    (board_of [drive_recent]) "asst-1"
  = Ok {[ "tool" := VStr "get_recent_context";
          "status" := VStr "error";
          "error" := VStr "date value out of range" ]}.
Proof.
  apply (recent_context_before_calendar Iso.fromisoformat noon "ALEX" 20000000
           (board_of [drive_recent]) "asst-1" [drive_recent] eq_refl).
  - vm_compute. split; discriminate.
  - reflexivity.
Defined.

(** *** The graph *)

Lemma collect_nodes_unknown (memories : list Memory) (i : nat)
    (acc : list (string * string) * list (string * string) * list (string * string)) :
  Forall (fun memory => bucket_of memory = None) memories ->
  collect_nodes i memories acc = acc.
Proof.
  intros H. revert i acc. induction H as [|memory memories Hm _ IH]; intros i acc.
  - reflexivity.
  - destruct acc as [[t d] c]. simpl. unfold bucket_of in Hm. cbv zeta in Hm.
    destruct (String.eqb (lower (source_of memory)) "telegram"); [discriminate|].
    destruct (String.eqb (lower (source_of memory)) "drive"); [discriminate|].
    destruct (String.eqb (lower (source_of memory)) "github" ||
              String.eqb (lower (source_of memory)) "git")%bool; [discriminate|].
    apply IH.
Qed.

(** When none of the first ten memories comes from telegram, drive,
    github or git, the graph is the topic with the single node that
    says no data was found; memories after the tenth are never drawn. *)
Theorem mermaid_no_data (topic : string) (memories : list Memory) :
  Forall (fun memory => bucket_of memory = None) (take 10 memories) ->
  build_mermaid_graph topic memories
  = "graph TD" +:+ str1 nl
    +:+ "    Start[" +:+ quoted topic +:+ "]" +:+ str1 nl
    +:+ "    Start --> NoData[" +:+ quoted "No related data found" +:+ "]" +:+ str1 nl.
Proof.
  intros H. unfold build_mermaid_graph.
  rewrite (collect_nodes_unknown _ 0 ([], [], []) H). reflexivity.
Qed.

Lemma mermaid_no_data_witness :
  build_mermaid_graph "login" (repeat slack_recent 10 ++ [drive_recent])
  = build_mermaid_graph "login" [].
Proof.
  rewrite (mermaid_no_data "login" (repeat slack_recent 10 ++ [drive_recent])).
  - rewrite (mermaid_no_data "login" []); [reflexivity|constructor].
  - repeat constructor.
Defined.

Lemma contains_empty (s : string) : contains EmptyString s = true.
Proof. destruct s; reflexivity. Qed.

Lemma filter_all_related (memories : list Memory) :
  filter (fun memory =>
            contains (lower EmptyString) (lower (default EmptyString (mem_content memory))) = true)
         memories = memories.
Proof.
  induction memories as [|memory memories IH]; [reflexivity|].
  rewrite filter_cons_True by apply contains_empty. rewrite IH. reflexivity.
Qed.



(** *** The detector *)

Lemma run_of_word_all (s : string) : all_word (run_of is_word s) = true.
Proof.
  induction s as [|c s IH]; [reflexivity|].
  simpl. destruct (is_word c) eqn:E; [|reflexivity]. simpl. rewrite E, IH. reflexivity.
Qed.

Lemma marker_here_shape (s w : string) :
  marker_here s = Some w -> w <> EmptyString /\ all_word w = true.
Proof.
  unfold marker_here. destruct s as [|a t]; [discriminate|].
  destruct (Ascii.eqb a "@"); [|discriminate].
  pose proof (run_of_word_all (skip_quote t)) as Hall.
  destruct (run_of is_word (skip_quote t)) as [|c r]; [discriminate|].
  intros H. injection H as <-. split; [discriminate|exact Hall].
Qed.

Lemma marker_here_no_at (s : string) : no_at s = true -> marker_here s = None.
Proof.
  destruct s as [|a t]; [reflexivity|]. simpl. intros H.
  apply andb_true_iff in H as [H _]. apply negb_true_iff in H. rewrite H. reflexivity.
Qed.



End ToolFacts.

(** ** The tables and the endpoints *)

Module ServerFacts.
Import Py Db Drive.

(** *** db.py *)

(** Creating a client that is not in the table stores it: the lookup
    then returns its row, every other client is found as before and the
    other tables are untouched. Creating a client that is there is
    refused with an [IntegrityError]. *)
Theorem create_client_lookup (d : DB) (client_id api_key : string) :
  match Tables.create_client d client_id api_key with
  | Tables.Stored d' =>
    lookup_client d client_id = None
    /\ lookup_client d' client_id = Some (mk_client client_id api_key)
    /\ (forall other, other <> client_id -> lookup_client d' other = lookup_client d other)
    /\ assistants d' = assistants d /\ drive_documents d' = drive_documents d
  | Tables.Refused _ => lookup_client d client_id <> None
  end.
Proof.
  unfold Tables.create_client, lookup_client.
  destruct (clients d !! client_id) as [k|] eqn:E; [discriminate|].
  cbn [clients assistants drive_documents]. rewrite lookup_insert_eq. repeat split; auto.
  intros other Hne. rewrite lookup_insert_ne by congruence. reflexivity.
Qed.

Lemma find_app_first {A} (f : A -> bool) (l1 l2 : list A) :
  List.find f (l1 ++ l2) = match List.find f l1 with Some x => Some x | None => List.find f l2 end.
Proof.
  induction l1 as [|a l1 IH]; [reflexivity|]. simpl. destruct (f a); [reflexivity|exact IH].
Qed.

(** The assistant of a client is the first one created for it: when a
    new assistant is stored, a client that had an assistant keeps it,
    and the new one is found only for a client that had none. *)
Theorem create_assistant_lookup (d d' : DB) (assistant_id client_id : string) :
  Tables.create_assistant d assistant_id client_id = Tables.Stored d' ->
  (forall cid, lookup_assistant d cid <> None -> lookup_assistant d' cid = lookup_assistant d cid)
  /\ (lookup_assistant d client_id = None ->
      lookup_assistant d' client_id = Some (mk_assistant assistant_id client_id))
  /\ (forall cid, cid <> client_id -> lookup_assistant d' cid = lookup_assistant d cid)
  /\ clients d' = clients d.
Proof.
  unfold Tables.create_assistant.
  destruct (existsb _ (assistants d)); [discriminate|].
  intros H. injection H as <-. unfold lookup_assistant. simpl.
  repeat split.
  - intros cid Hc. rewrite find_app_first.
    destruct (List.find _ (assistants d)); [reflexivity|congruence].
  - intros Hn. rewrite find_app_first.
    destruct (List.find _ (assistants d)); [discriminate|].
    simpl. rewrite String.eqb_refl. reflexivity.
  - intros cid Hne. rewrite find_app_first.
    destruct (List.find _ (assistants d)); [reflexivity|].
    simpl. destruct (String.eqb_spec client_id cid); [congruence|reflexivity].
Qed.

Lemma create_assistant_lookup_witness :
  lookup_assistant
    (mk_db {[ "ALEX" := "gAAAAA" ]} [("asst-1", "ALEX"); ("asst-2", "ALEX")] ∅) "ALEX"
  = Some (mk_assistant "asst-1" "ALEX").
Proof.
  exact (proj1 (create_assistant_lookup Fixtures.db_registered
                  (mk_db {[ "ALEX" := "gAAAAA" ]} [("asst-1", "ALEX"); ("asst-2", "ALEX")] ∅)
                  "asst-2" "ALEX" eq_refl) "ALEX" ltac:(discriminate)).
Defined.

(** A thread that is logged is found again under its chat id with its
    channel and text, the other chats are found as before, and a chat
    id that is there is refused. *)
Theorem create_thread_lookup (t : Tables.Chats) (chat_id channel_name chat : string) :
  match Tables.create_thread t chat_id channel_name chat with
  | Tables.Stored t' =>
    Tables.lookup_thread t chat_id = None
    /\ Tables.lookup_thread t' chat_id = Some (Tables.mk_chat chat_id channel_name chat)
    /\ (forall other, other <> chat_id ->
          Tables.lookup_thread t' other = Tables.lookup_thread t other)
  | Tables.Refused _ => Tables.lookup_thread t chat_id <> None
  end.
Proof.
  unfold Tables.create_thread, Tables.lookup_thread.
  destruct (t !! chat_id) as [row|] eqn:E; [discriminate|].
  rewrite lookup_insert_eq. repeat split; auto.
  intros other Hne. rewrite lookup_insert_ne by congruence. reflexivity.
Qed.

(** *** server.py *)

Lemma server_create_client_new (encrypt_api_key : string -> string) (d : DB)
    (client_id api_key : string) :
  lookup_client d client_id = None ->
  Server.create_client encrypt_api_key d client_id api_key
  = (mk_db (<[client_id := encrypt_api_key api_key]> (clients d)) (assistants d)
           (drive_documents d),
     Server.Failed (Server.NameError "name 'decrypted_api_key' is not defined")).
Proof.
  intros H. unfold Server.create_client. rewrite H.
  unfold Tables.create_client. unfold lookup_client in H.
  destruct (clients d !! client_id); [discriminate|]. reflexivity.
Qed.

(** [POST /client] never returns normally and never creates an
    assistant: for a client that exists it raises the 409 and changes
    nothing; for a new client it stores the encrypted key and then
    raises [NameError]. *)
Theorem server_create_client_fails (encrypt_api_key : string -> string) (d : DB)
    (client_id api_key : string) :
  let out := Server.create_client encrypt_api_key d client_id api_key in
  assistants (fst out) = assistants d
  /\ drive_documents (fst out) = drive_documents d
  /\ match lookup_client d client_id with
     | Some _ =>
       out = (d, Server.Failed (Server.HTTPException 409 "Client already exists!"))
     | None =>
       snd out = Server.Failed (Server.NameError "name 'decrypted_api_key' is not defined")
       /\ lookup_client (fst out) client_id
          = Some (mk_client client_id (encrypt_api_key api_key))
       /\ lookup_assistant (fst out) client_id = lookup_assistant d client_id
     end.
Proof.
  cbv zeta. destruct (lookup_client d client_id) as [client|] eqn:E.
  - unfold Server.create_client. rewrite E. auto.
  - rewrite (server_create_client_new encrypt_api_key d client_id api_key E). simpl.
    repeat split. unfold lookup_client. simpl. rewrite lookup_insert_eq. reflexivity.
Qed.

(** A client created through [POST /client] cannot send a message:
    it has no assistant, so [POST /messages/send] fails for it, with
    [TypeError] when its key decrypts, and creating it again is refused
    with the 409. *)
Theorem created_client_cannot_send (encrypt_api_key : string -> string) (w : World) (d : DB)
    (client_id api_key content : string) :
  lookup_client d client_id = None ->
  lookup_assistant d client_id = None ->
  let d' := fst (Server.create_client encrypt_api_key d client_id api_key) in
  (forall text, Server.add_thread w d' client_id content <> Server.Returned text)
  /\ (forall key, fernet_decrypt w (encrypt_api_key api_key) = Ok key ->
        Server.add_thread w d' client_id content
        = Server.Failed (Server.TypeError "'NoneType' object is not subscriptable"))
  /\ (forall api_key',
        snd (Server.create_client encrypt_api_key d' client_id api_key')
        = Server.Failed (Server.HTTPException 409 "Client already exists!")).
Proof.
  intros Hc Ha. cbv zeta.
  rewrite (server_create_client_new encrypt_api_key d client_id api_key Hc). simpl fst.
  set (d' := mk_db _ _ _).
  assert (lookup_client d' client_id = Some (mk_client client_id (encrypt_api_key api_key)))
    as Hc'.
  { unfold lookup_client, d'. simpl. rewrite lookup_insert_eq. reflexivity. }
  assert (lookup_assistant d' client_id = None) as Ha' by exact Ha.
  repeat split.
  - intros text. unfold Server.add_thread. rewrite Hc'. simpl c_api_key.
    destruct (fernet_decrypt w (encrypt_api_key api_key)); [|discriminate].
    rewrite Ha'. discriminate.
  - intros key Hk. unfold Server.add_thread. rewrite Hc'. simpl c_api_key.
    rewrite Hk, Ha'. reflexivity.
  - intros api_key'. unfold Server.create_client. rewrite Hc'. reflexivity.
Qed.

Lemma created_client_cannot_send_witness :
  Server.add_thread Fixtures.world_ok
    (fst (Server.create_client (fun k => "g" +:+ k) Fixtures.db_empty "ALEX" "AAAAA"))
    "ALEX" "hello"
  = Server.Failed (Server.TypeError "'NoneType' object is not subscriptable").
Proof.
  exact (proj1 (proj2 (created_client_cannot_send (fun k => "g" +:+ k) Fixtures.world_ok
                         Fixtures.db_empty "ALEX" "AAAAA" "hello" eq_refl eq_refl))
           "plain-gAAAAA" eq_refl).
Defined.

End ServerFacts.

(** ** The hours of get_recent_context *)

Module HoursFacts.
Import Py Datetime Tools ToolSpec HoursSpec.

Lemma outline_group_plus (q : ascii -> bool) (s : string) :
  outline (Re.run (Re.Group (Re.Plus q)) s)
  = match run_of q s with
    | EmptyString => None
    | digits => Some (Some digits)
    end.
Proof.
  simpl. pose proof (ParserFacts.plus_greedy_head q s) as H.
  destruct (Re.plus_greedy q s) as [|m tl]; simpl.
  - rewrite H. reflexivity.
  - destruct H as [-> Hne]. simpl. destruct (run_of q s); [congruence|reflexivity].
Qed.

Lemma run_seq (r1 r2 : Re.regex) (s : string) :
  Re.run (Re.Seq r1 r2) s = flat_map (after r2) (Re.run r1 s).
Proof. reflexivity. Qed.

Lemma outline_after_plain (r : Re.regex) (m1 : Re.found) :
  Re.group1 m1 = None -> outline (after r m1) = outline (Re.run r (Re.rest m1)).
Proof.
  intros H. unfold after. apply ParserFacts.outline_map.
  intros m2. simpl. rewrite H. apply ParserFacts.or_else_none.
Qed.

Lemma outline_flat_map_app (f : Re.found -> list Re.found) (l1 l2 : list Re.found) :
  outline (flat_map f (l1 ++ l2))
  = match outline (flat_map f l1) with
    | Some g => Some g
    | None => outline (flat_map f l2)
    end.
Proof. rewrite flat_map_app. apply ParserFacts.outline_app. Qed.

Lemma outline_after_extend (r : Re.regex) (c : ascii) (l : list (string * string)) :
  outline (flat_map (after r) (map Re.plain (map (Re.extend c) l)))
  = outline (flat_map (after r) (map Re.plain l)).
Proof.
  induction l as [|m l IH]; [reflexivity|].
  simpl map. simpl flat_map. rewrite !ParserFacts.outline_app, IH.
  rewrite !outline_after_plain by reflexivity. reflexivity.
Qed.

Lemma run_of_head (p : ascii -> bool) (s : string) (a : ascii) (x : string) :
  run_of p s = String a x -> exists s', s = String a s' /\ p a = true.
Proof.
  destruct s as [|c s']; simpl; [discriminate|].
  destruct (p c) eqn:E; [|discriminate].
  intros H. injection H as <- _. exists s'. split; [reflexivity|exact E].
Qed.

(** A run of [p], then a group that is a run of [q], when no character
    is of both classes: the longest run of each. *)
Lemma outline_plus_group (p q : ascii -> bool) (s : string) :
  (forall c, p c = true -> q c = false) ->
  outline (Re.run (Re.Seq (Re.Plus p) (Re.Group (Re.Plus q))) s)
  = match run_of p s with
    | EmptyString => None
    | _ =>
      match run_of q (rest_of p s) with
      | EmptyString => None
      | digits => Some (Some digits)
      end
    end.
Proof.
  intros Hpq. induction s as [|c s IH]; [reflexivity|].
  rewrite run_seq in *. simpl Re.run at 1. simpl run_of. simpl rest_of.
  destruct (p c) eqn:Ec; [|reflexivity].
  rewrite map_app, outline_flat_map_app, outline_after_extend.
  change (map Re.plain (Re.plus_greedy p s)) with (Re.run (Re.Plus p) s).
  rewrite IH. simpl map. simpl flat_map. rewrite app_nil_r.
  rewrite outline_after_plain by reflexivity. simpl Re.rest.
  rewrite outline_group_plus.
  destruct (run_of p s) as [|a x] eqn:Ep.
  - rewrite (ParserFacts.run_of_empty_rest _ _ Ep). reflexivity.
  - destruct (run_of q (rest_of p s)); [|reflexivity].
    destruct (run_of_head p s a x Ep) as (s' & -> & Ha).
    simpl. rewrite (Hpq a Ha). reflexivity.
Qed.

Lemma outline_lit_ci (w : string) (k : Re.regex) (s : string) :
  outline (Re.run (Re.lit_ci w k) s)
  = match strip_prefix_ci w s with
    | Some t => outline (Re.run k t)
    | None => None
    end.
Proof.
  revert s. induction w as [|a w IH]; intros s; [reflexivity|].
  simpl Re.lit_ci. rewrite ParserFacts.outline_chr_seq. simpl strip_prefix_ci.
  destruct s as [|c t]; [reflexivity|].
  destruct (Re.is_char_ci a c); [apply IH|reflexivity].
Qed.

Lemma digit_not_separator (c : ascii) : Re.colon_or_space c = true -> is_digit c = false.
Proof.
  destruct c as [[] [] [] [] [] [] [] []]; intros H; try reflexivity; discriminate H.
Qed.

Lemma s_not_separator (c : ascii) : Re.is_char_ci "s" c = true -> Re.colon_or_space c = false.
Proof.
  destruct c as [[] [] [] [] [] [] [] []]; intros H; try reflexivity; discriminate H.
Qed.

Lemma run_hours_pattern (s : string) :
  outline (Re.run hours_pattern s)
  = match hours_here s with
    | Some digits => Some (Some digits)
    | None => None
    end.
Proof.
  unfold hours_pattern, hours_here. rewrite outline_lit_ci.
  destruct (strip_prefix_ci "hour" s) as [t|]; [|reflexivity].
  rewrite ParserFacts.outline_opt_seq.
  assert (forall u,
    outline (Re.run (Re.Seq (Re.Plus Re.colon_or_space) (Re.Group (Re.Plus is_digit))) u)
    = match run_of Re.colon_or_space u with
      | EmptyString => None
      | _ => match run_of is_digit (rest_of Re.colon_or_space u) with
             | EmptyString => None
             | digits => Some (Some digits)
             end
      end) as R by (intros u; apply outline_plus_group, digit_not_separator).
  destruct t as [|c t']; simpl skip_s.
  - rewrite R. reflexivity.
  - destruct (Re.is_char_ci "s" c) eqn:E.
    + rewrite (R t'), (R (String c t')).
      simpl (run_of Re.colon_or_space (String c t')). rewrite (s_not_separator c E).
      destruct (run_of Re.colon_or_space t'); [reflexivity|].
      destruct (run_of is_digit (rest_of Re.colon_or_space t')); reflexivity.
    + rewrite (R (String c t')).
      destruct (run_of Re.colon_or_space (String c t')); [reflexivity|].
      destruct (run_of is_digit (rest_of Re.colon_or_space (String c t'))); reflexivity.
Qed.

Lemma first_hours_cons (c : ascii) (s : string) :
  first_hours (String c s)
  = match hours_here (String c s) with
    | Some digits => Some digits
    | None => first_hours s
    end.
Proof. reflexivity. Qed.

Lemma search_hours_pattern (text : string) :
  option_map group (Re.search hours_pattern text) = first_hours text.
Proof.
  induction text as [|c text IH].
  - pose proof (run_hours_pattern EmptyString) as H.
    change (Re.search hours_pattern EmptyString)
      with (match Re.run hours_pattern EmptyString with
            | m :: _ => Some m
            | [] => None
            end).
    destruct (Re.run hours_pattern EmptyString) as [|m tl]; [reflexivity|].
    simpl in H. discriminate H.
  - rewrite ParserFacts.search_cons, first_hours_cons.
    pose proof (run_hours_pattern (String c text)) as H.
    destruct (Re.run hours_pattern (String c text)) as [|m tl]; simpl outline in H.
    + destruct (hours_here (String c text)); [discriminate H|]. exact IH.
    + destruct (hours_here (String c text)) as [digits|]; [|discriminate H].
      injection H as H. simpl. unfold group. rewrite H. reflexivity.
Qed.

Lemma run_of_digits (s : string) : all_digits (run_of is_digit s) = true.
Proof.
  induction s as [|c s IH]; [reflexivity|].
  simpl. destruct (is_digit c) eqn:E; [|reflexivity]. simpl. rewrite E, IH. reflexivity.
Qed.

Lemma hours_here_digits (s digits : string) :
  hours_here s = Some digits -> digits <> EmptyString /\ all_digits digits = true.
Proof.
  unfold hours_here. destruct (strip_prefix_ci "hour" s) as [t|]; [|discriminate].
  destruct (run_of Re.colon_or_space (skip_s t)); [discriminate|].
  pose proof (run_of_digits (rest_of Re.colon_or_space (skip_s t))) as Hd.
  destruct (run_of is_digit (rest_of Re.colon_or_space (skip_s t))); [discriminate|].
  intros H. injection H as <-. split; [discriminate|exact Hd].
Qed.


(** The label after the number is not read: the request falls back to
    24 hours. *)
Example hours_before_label :
  first_hours "@get_recent_context for the last 48 hours" = None
  /\ first_hours "@get_recent_context Hours:  48h" = Some "48"
  /\ first_hours "@get_recent_context hours=48" = None.
Proof. vm_compute. repeat split. Qed.

End HoursFacts.
